(** * SmartFactory IoT Stats: the [/stats] endpoint of [src/main.py]

    A shallow embedding of the three parts of the service: the dataset
    loader [load_data], the filter-and-aggregate body of [stats], and the
    response cache keyed by [_cache_key].

    Modelling choices.
    - Python [str] values are [string]s of ASCII characters.
    - [Optional[str]] is [option string]. A test on the truth of such a
      value ([if location:], [if not date_str:]) is a match that separates
      [Some] of a text that is not empty from [None] and [Some ""].
    - A pandas [Timestamp] (UTC) is its number of nanoseconds since the Unix
      epoch, a [Z].
    - A float64 is an [F64]: [NaN], an infinity, or the rational it is
      exactly (the two zeros are one). A [value] of the table is a [Num], a
      float64 that is not [NaN], what [dropna] leaves. The mean of a series
      rounds, in an order of additions that is pandas' own: it is taken from
      the interface.
    - pandas itself is not part of the repository: what the code needs of
      it is the interface [Pandas]. A cell of the file is read within its
      column, since [read_csv] gives a type to a column as a whole and
      [to_datetime] takes one format for a column. The general theorems
      hold for every implementation of the interface, and [iso_pandas] is a
      concrete one for ISO-8601 text, used to evaluate the code on concrete
      requests.
    - The module-level dict [_cache] is a [gmap]; the [lru_cache] around
      [load_data] is an [option] slot; both live in [State], threaded through
      [stats]. An exception is the left injection of a sum; the
      exceptions are the one [load_data] raises and the one [JSONResponse]
      raises on a float that JSON cannot write.
    - Requests are served one after the other; the lock around the two
      accesses to [_cache] is not modelled. *)

From Stdlib Require Import ZArith QArith Ascii String List Bool Lia.
From Stdlib Require Import DecimalString.
From stdpp Require Import base option list strings gmap.

Local Open Scope string_scope.

(** * The model *)

(** ** Python string operations *)

Module PyStr.

(** [str.isspace] on one ASCII character: TAB, LF, VT, FF, CR, the four
    separators FS GS RS US, and the space. *)
Definition is_space (c : ascii) : bool :=
  let n := N_of_ascii c in
  ((9 <=? n)%N && (n <=? 13)%N) || ((28 <=? n)%N && (n <=? 32)%N).

Definition lower_char (c : ascii) : ascii :=
  let n := N_of_ascii c in
  if ((65 <=? n)%N && (n <=? 90)%N) then ascii_of_N (n + 32) else c.

(** [s.lower()] *)
Fixpoint lower (s : string) : string :=
  match s with
  | EmptyString => EmptyString
  | String c s' => String (lower_char c) (lower s')
  end.

(** [s.lstrip()] *)
Fixpoint lstrip (s : string) : string :=
  match s with
  | EmptyString => EmptyString
  | String c s' => if is_space c then lstrip s' else s
  end.

(** [s.rstrip()] *)
Fixpoint rstrip (s : string) : string :=
  match s with
  | EmptyString => EmptyString
  | String c s' =>
      match rstrip s' with
      | EmptyString => if is_space c then EmptyString else String c EmptyString
      | t => String c t
      end
  end.

(** [s.strip()] *)
Definition strip (s : string) : string := rstrip (lstrip s).

(** Every character of [s] is whitespace. *)
Fixpoint all_space (s : string) : bool :=
  match s with
  | EmptyString => true
  | String c s' => is_space c && all_space s'
  end.

End PyStr.

(** ** The cache key *)

(** [norm = lambda s: s.strip().lower() if isinstance(s, str) else None] *)
Definition norm (s : option string) : option string :=
  match s with
  | Some v => Some (PyStr.lower (PyStr.strip v))
  | None => None
  end.

Definition Key : Type :=
  (option string * option string * option string * option string)%type.

Definition _cache_key (location sensor start_date end_date : option string) : Key :=
  (norm location, norm sensor, norm start_date, norm end_date).

(** ** What the code uses of pandas *)

(** A float64 that is not [NaN]. *)
Inductive Num :=
| NegInf
| Fin (q : Q)
| PosInf.

(** A float64. *)
Inductive F64 :=
| NaN
| Number (x : Num).

(** - [to_datetime s] is the scalar call [pd.to_datetime(s, utc=True)] of
      [_parse_iso]: the instant in nanoseconds since the epoch, or [None]
      where pandas gives [NaT] or raises (the call sits in a [try] and is
      followed by [pd.isna]);
    - [column_to_datetime col s] is what
      [pd.to_datetime(df["timestamp"], errors="coerce", utc=True)] gives for
      a cell of text [s] in a column whose cells are [col], [None] for [NaT];
    - [column_to_numeric col s] is what
      [pd.to_numeric(df["value"], errors="coerce")] gives for a cell of text
      [s] in a column that [read_csv] read from the cells [col], [None] for
      [NaN];
    - [column_astype_str col s] is the text [astype(str)] gives for a cell
      of text [s] in a column that [read_csv] read from the cells [col];
    - [series_mean vals] is [vals.mean()], in float64. *)
Class Pandas := {
  to_datetime : string -> option Z;
  column_to_datetime : list string -> string -> option Z;
  column_to_numeric : list string -> string -> option Num;
  column_astype_str : list string -> string -> string;
  series_mean : list Num -> F64;
}.

(** ** Data model *)

(** The table [pd.read_csv] returns: the header and the rows of cells. *)
Record Frame := {
  columns : list string;
  records : list (list string);
}.

(** The cell of [row] under the column called [name]. *)
Fixpoint cell (cols row : list string) (name : string) : string :=
  match cols, row with
  | c :: cols', v :: row' => if String.eqb c name then v else cell cols' row' name
  | _, _ => ""
  end.

(** One row of the frame [load_data] returns. *)
Record Reading := {
  timestamp : Z;
  location : string;
  sensor : string;
  value : Num;
  location_norm : string;
  sensor_norm : string;
}.

Abbreviation DataFrame := (list Reading).

(** [ValueError(f"CSV missing columns: {missing}")], raised by [load_data],
    and the [ValueError] that [JSONResponse] raises when it renders a
    content with a float that is not finite ("Out of range float values are
    not JSON compliant"). *)
Inductive Exn :=
| ValueError (missing : list string)
| OutOfRangeFloat.

Record Stats := {
  st_count : nat;
  st_avg : option F64;
  st_min : option F64;
  st_max : option F64;
}.

(** [{"stats": stats_obj}] *)
Record Payload := { p_stats : Stats }.

Inductive XCache := HIT | MISS.

(** A response: its content and its [X-Cache] header. *)
Record Response := {
  content : Payload;
  x_cache : XCache;
}.

(** JSON writes a float only when it is finite. *)
Definition finite (x : F64) : bool :=
  match x with
  | Number (Fin _) => true
  | _ => false
  end.

Definition json_field (o : option F64) : bool :=
  match o with
  | Some x => finite x
  | None => true
  end.

Definition json_compliant (p : Payload) : bool :=
  json_field (st_avg (p_stats p)) && json_field (st_min (p_stats p))
  && json_field (st_max (p_stats p)).

(** [JSONResponse(content=payload, headers={"X-Cache": ...})]: the content
    is rendered when the response is built, with [allow_nan=False]. *)
Definition JSONResponse (payload : Payload) (x : XCache) : Exn + Response :=
  if json_compliant payload
  then inr {| content := payload; x_cache := x |}
  else inl OutOfRangeFloat.

(** The process state: the slot of [lru_cache(maxsize=1)] around
    [load_data], and the dict [_cache]. *)
Record State := {
  loaded : option DataFrame;
  cache : gmap Key Payload;
}.

Definition init : State := {| loaded := None; cache := ∅ |}.

(** The four query parameters of one request. *)
Record Request := {
  q_location : option string;
  q_sensor : option string;
  q_start_date : option string;
  q_end_date : option string;
}.

(** ** Series aggregates *)

(** The order of the floats that are not [NaN]. *)
Definition Num_leb (x y : Num) : bool :=
  match x, y with
  | NegInf, _ => true
  | _, PosInf => true
  | Fin a, Fin b => Qle_bool a b
  | _, _ => false
  end.

Definition Num_le (x y : Num) : Prop := Num_leb x y = true.

Definition Num_min (x y : Num) : Num := if Num_leb x y then x else y.

Definition Num_max (x y : Num) : Num := if Num_leb x y then y else x.

(** [vals.min()] *)
Definition series_min (vals : list Num) : option Num :=
  match vals with
  | [] => None
  | v :: vs => Some (fold_left Num_min vs v)
  end.

(** [vals.max()] *)
Definition series_max (vals : list Num) : option Num :=
  match vals with
  | [] => None
  | v :: vs => Some (fold_left Num_max vs v)
  end.

Section Service.

Context `{pd : Pandas}.

(** ** [load_data] *)

Definition required : list string := ["timestamp"; "location"; "sensor"; "value"].

(** [df[name]] as [read_csv] read it: the cells of one column. *)
Definition column (cols : list string) (rows : list (list string))
    (name : string) : list string :=
  map (fun row => cell cols row name) rows.

(** The frame after lines 35-36: the rows that are left, each with its
    timestamp, and the rows that were read, which fixed the type of every
    column. *)
Record Dated := {
  read_rows : list (list string);
  dated_rows : list (Z * list string);
}.

(** Lines 35-36: parse the timestamp column, drop the rows left with [NaT]. *)
Definition with_timestamp (cols : list string) (rows : list (list string))
  : Dated :=
  {| read_rows := rows;
     dated_rows :=
       omap (fun row =>
               match column_to_datetime (column cols rows "timestamp")
                       (cell cols row "timestamp") with
               | Some ts => Some (ts, row)
               | None => None
               end) rows |}.

(** Lines 38-42: the two normalized columns, then the value column made
    numeric and the rows left with [NaN] dropped. *)
Definition with_value (cols : list string) (d : Dated) : DataFrame :=
  let rows := read_rows d in
  omap (fun '(ts, row) =>
          match column_to_numeric (column cols rows "value")
                  (cell cols row "value") with
          | Some v =>
              Some {| timestamp := ts;
                      location := cell cols row "location";
                      sensor := cell cols row "sensor";
                      value := v;
                      location_norm :=
                        PyStr.lower (PyStr.strip
                          (column_astype_str (column cols rows "location")
                             (cell cols row "location")));
                      sensor_norm :=
                        PyStr.lower (PyStr.strip
                          (column_astype_str (column cols rows "sensor")
                             (cell cols row "sensor"))) |}
          | None => None
          end) (dated_rows d).

(** The body of [load_data], on the frame read from [sensors.csv]. *)
Definition load_data_body (src : Frame) : Exn + DataFrame :=
  match filter (fun c => c ∉ columns src) required with
  | [] => inr (with_value (columns src) (with_timestamp (columns src) (records src)))
  | missing => inl (ValueError missing)
  end.

(** [load_data] under [lru_cache]: a stored frame is returned as it is; a
    fresh one is stored; an exception stores nothing. *)
Definition load_data (src : Frame) (st : State) : (Exn + DataFrame) * State :=
  match loaded st with
  | Some df => (inr df, st)
  | None =>
      match load_data_body src with
      | inr df => (inr df, {| loaded := Some df; cache := cache st |})
      | inl e => (inl e, st)
      end
  end.

(** ** [_parse_iso] *)

Definition _parse_iso (date_str : option string) : option Z :=
  match date_str with
  | Some (String _ _ as s) => to_datetime s
  | _ => None
  end.

(** ** The body of [stats] *)

(** [if param: flt = flt[flt[col] == param.strip().lower()]] *)
Definition where_eq (col : Reading -> string) (param : option string)
    (flt : DataFrame) : DataFrame :=
  match param with
  | Some (String _ _ as s) =>
      filter (fun r => col r = PyStr.lower (PyStr.strip s)) flt
  | _ => flt
  end.

(** [if start_ts is not None: flt = flt[flt["timestamp"] >= start_ts]] *)
Definition where_ge (start_ts : option Z) (flt : DataFrame) : DataFrame :=
  match start_ts with
  | Some t => filter (fun r => (t <= timestamp r)%Z) flt
  | None => flt
  end.

(** [if end_ts is not None: flt = flt[flt["timestamp"] <= end_ts]] *)
Definition where_le (end_ts : option Z) (flt : DataFrame) : DataFrame :=
  match end_ts with
  | Some t => filter (fun r => (timestamp r <= t)%Z) flt
  | None => flt
  end.

(** Lines 100-114. *)
Definition filter_rows (df : DataFrame)
    (location sensor start_date end_date : option string) : DataFrame :=
  let flt := df in
  let flt := where_eq location_norm location flt in
  let flt := where_eq sensor_norm sensor flt in
  let start_ts := _parse_iso start_date in
  let end_ts := _parse_iso end_date in
  let flt := where_ge start_ts flt in
  let flt := where_le end_ts flt in
  flt.

(** Lines 118-127. *)
Definition aggregate (flt : DataFrame) : Stats :=
  match flt with
  | [] => {| st_count := 0; st_avg := None; st_min := None; st_max := None |}
  | _ =>
      let vals := map value flt in
      {| st_count := length vals;
         st_avg := Some (series_mean vals);
         st_min := Number <$> series_min vals;
         st_max := Number <$> series_max vals |}
  end.

Definition compute (df : DataFrame)
    (location sensor start_date end_date : option string) : Stats :=
  aggregate (filter_rows df location sensor start_date end_date).

(** The endpoint: [src] is what [sensors.csv] holds when the request is
    served. *)
Definition stats (src : Frame) (st : State)
    (location sensor start_date end_date : option string)
  : (Exn + Response) * State :=
  let key := _cache_key location sensor start_date end_date in
  match cache st !! key with
  | Some payload => (JSONResponse payload HIT, st)
  | None =>
      match load_data src st with
      | (inl e, st1) => (inl e, st1)
      | (inr df, st1) =>
          let payload :=
            {| p_stats := compute df location sensor start_date end_date |} in
          (JSONResponse payload MISS,
           {| loaded := loaded st1; cache := <[key := payload]> (cache st1) |})
      end
  end.

Definition stats_req (src : Frame) (st : State) (q : Request)
  : (Exn + Response) * State :=
  stats src st (q_location q) (q_sensor q) (q_start_date q) (q_end_date q).

(** Serving a sequence of requests against the same file, one after the
    other. *)
Fixpoint serve (src : Frame) (st : State) (qs : list Request)
  : list (Exn + Response) * State :=
  match qs with
  | [] => ([], st)
  | q :: qs' =>
      let '(r, st1) := stats_req src st q in
      let '(rs, st2) := serve src st1 qs' in
      (r :: rs, st2)
  end.

End Service.

Definition request_key (q : Request) : Key :=
  _cache_key (q_location q) (q_sensor q) (q_start_date q) (q_end_date q).

(** Two requests ask for the same thing: the same normalized location and
    sensor, and bounds that parse to the same instants. *)
Definition same_criteria `{pd : Pandas} (q1 q2 : Request) : Prop :=
  norm (q_location q1) = norm (q_location q2) /\
  norm (q_sensor q1) = norm (q_sensor q2) /\
  _parse_iso (q_start_date q1) = _parse_iso (q_start_date q2) /\
  _parse_iso (q_end_date q1) = _parse_iso (q_end_date q2).

(** ** A concrete pandas for ISO-8601 text *)

(** The instance reads the timestamps [YYYY-MM-DD], optionally followed by [T]
    or a space and [HH:MM:SS], optionally followed by [Z] or an offset
    [+HH:MM] / [-HH:MM]; a text without zone is UTC (the calls pass
    [utc=True]), a date without time is midnight. Any other text is [NaT].
    A column of timestamps is read in the layout of its first cell that is
    not empty, as pandas 2 does; the cells in another layout are [NaT].
    Numbers are plain decimal literals and [inf], rounded to the nearest
    float64; any other text is [NaN]. A column all of whose cells are
    integers is a column of integers, printed without leading zeros; with
    empty cells among them it is a column of floats; any other column is a
    column of text, where an empty cell is [NaN], printed [nan]; columns of
    other floats are outside the instance. The mean of a series adds its
    values from left to right, as numpy does for fewer than eight values,
    and divides by their number. *)
Module Iso.

Local Open Scope Z_scope.

Definition digit (c : ascii) : option Z :=
  let n := Z.of_N (N_of_ascii c) in
  if (48 <=? n) && (n <=? 57) then Some (n - 48) else None.

(** Reads exactly [k] decimal digits. *)
Fixpoint digits (k : nat) (acc : Z) (s : string) : option (Z * string) :=
  match k, s with
  | O, _ => Some (acc, s)
  | S k', String c s' =>
      match digit c with
      | Some d => digits k' (10 * acc + d) s'
      | None => None
      end
  | S _, EmptyString => None
  end.

Definition expect (c : ascii) (s : string) : option string :=
  match s with
  | String c' s' => if Ascii.eqb c c' then Some s' else None
  | EmptyString => None
  end.

Definition is_leap (y : Z) : bool :=
  ((y mod 4 =? 0) && negb (y mod 100 =? 0)) || (y mod 400 =? 0).

Definition days_in_month (y m : Z) : Z :=
  if m =? 2 then (if is_leap y then 29 else 28)
  else if (m =? 4) || (m =? 6) || (m =? 9) || (m =? 11) then 30
  else 31.

(** Days from 1970-01-01 to the civil date [y]-[m]-[d]. *)
Definition days_from_civil (y m d : Z) : Z :=
  let y' := if m <=? 2 then y - 1 else y in
  let era := y' / 400 in
  let yoe := y' - era * 400 in
  let doy := (153 * (if 2 <? m then m - 3 else m + 9) + 2) / 5 + d - 1 in
  let doe := yoe * 365 + yoe / 4 - yoe / 100 + doy in
  era * 146097 + doe - 719468.

Definition ns_per_second : Z := 1000000000.

(** Midnight UTC at the start of the day [y]-[m]-[d]. *)
Definition start_of_day (y m d : Z) : Z :=
  days_from_civil y m d * 86400 * ns_per_second.

Definition parse_date (s : string) : option (Z * string) :=
  '(y, s) ← digits 4 0 s;
  s ← expect "-" s;
  '(m, s) ← digits 2 0 s;
  s ← expect "-" s;
  '(d, s) ← digits 2 0 s;
  if (1 <=? m) && (m <=? 12) && (1 <=? d) && (d <=? days_in_month y m)
  then Some (days_from_civil y m d * 86400, s)
  else None.

(** [HH:MM:SS], in seconds since midnight. *)
Definition parse_hms (s : string) : option (Z * string) :=
  '(h, s) ← digits 2 0 s;
  s ← expect ":" s;
  '(mi, s) ← digits 2 0 s;
  s ← expect ":" s;
  '(sec, s) ← digits 2 0 s;
  if (h <=? 23) && (mi <=? 59) && (sec <=? 59)
  then Some (h * 3600 + mi * 60 + sec, s)
  else None.

(** The offset from UTC, in seconds. *)
Definition parse_zone (s : string) : option Z :=
  match s with
  | EmptyString => Some 0
  | String "Z" EmptyString => Some 0
  | String sign s' =>
      '(h, s') ← digits 2 0 s';
      s' ← expect ":" s';
      '(mi, s') ← digits 2 0 s';
      match s' with
      | EmptyString =>
          if negb ((h <=? 23) && (mi <=? 59)) then None
          else if Ascii.eqb sign "+" then Some (h * 3600 + mi * 60)
          else if Ascii.eqb sign "-" then Some (- (h * 3600 + mi * 60))
          else None
      | _ => None
      end
  end.

Definition parse_timestamp (s : string) : option Z :=
  '(day, s) ← parse_date s;
  match s with
  | EmptyString => Some (day * ns_per_second)
  | String sep s' =>
      if Ascii.eqb sep "T" || Ascii.eqb sep " " then
        '(tod, s') ← parse_hms s';
        off ← parse_zone s';
        Some ((day + tod - off) * ns_per_second)
      else None
  end.

(** Digits with at most one point; [den] is the power of ten of the
    fraction read so far. *)
Fixpoint decimal (s : string) (num : Z) (den : positive) (dot any : bool)
  : option Q :=
  match s with
  | EmptyString => if any then Some (num # den) else None
  | String c s' =>
      match digit c with
      | Some d =>
          decimal s' (10 * num + d) (if dot then (den * 10)%positive else den) dot true
      | None =>
          if Ascii.eqb c "." && negb dot then decimal s' num den true any else None
      end
  end.

(** The nearest integer to [n / d], ties to even, for [0 <= n], [0 < d]. *)
Definition nearest_even (n d : Z) : Z :=
  let q := n / d in
  match 2 * (n mod d) ?= d with
  | Lt => q
  | Gt => q + 1
  | Eq => if Z.even q then q else q + 1
  end.

(** The integer part of the binary logarithm of [n / d], for [0 < n],
    [0 < d]. *)
Definition floor_log2 (n d : Z) : Z :=
  let k := Z.log2 n - Z.log2 d in
  if (if 0 <=? k then d * 2 ^ k <=? n else d <=? n * 2 ^ (- k))
  then k else k - 1.

(** The float64 nearest to a rational, ties to even: 53 bits, the last of
    weight [2 ^ e] with [-1074 <= e <= 971], an infinity beyond. *)
Definition round64 (q : Q) : Num :=
  let n := Z.abs (Qnum q) in
  let d := Z.pos (Qden q) in
  if n =? 0 then Fin 0 else
  let e := Z.max (floor_log2 n d - 52) (-1074) in
  let m := if 0 <=? e then nearest_even n (d * 2 ^ e)
           else nearest_even (n * 2 ^ (- e)) d in
  let negative := Qnum q <? 0 in
  if (0 <=? e) && (2 ^ 1024 <=? m * 2 ^ e)
  then (if negative then NegInf else PosInf)
  else
    let magnitude := if 0 <=? e then inject_Z (m * 2 ^ e)
                     else Qred (m # Z.to_pos (2 ^ (- e))) in
    Fin (if negative then Qopp magnitude else magnitude).

(** [x + y] in float64. *)
Definition fadd (x y : F64) : F64 :=
  match x, y with
  | NaN, _ | _, NaN => NaN
  | Number PosInf, Number NegInf | Number NegInf, Number PosInf => NaN
  | Number PosInf, _ | _, Number PosInf => Number PosInf
  | Number NegInf, _ | _, Number NegInf => Number NegInf
  | Number (Fin a), Number (Fin b) => Number (round64 (a + b))
  end.

(** [x / n] in float64, for a count [n]. *)
Definition fdiv (x : F64) (n : Z) : F64 :=
  if n =? 0 then NaN else
  match x with
  | Number (Fin a) => Number (round64 (a / inject_Z n))
  | _ => x
  end.

Definition mean (vals : list Num) : F64 :=
  fdiv (fold_left (fun acc v => fadd acc (Number v)) vals (Number (Fin 0)))
       (Z.of_nat (length vals)).

Definition parse_number (s : string) : option Num :=
  match s with
  | "inf" => Some PosInf
  | "-inf" => Some NegInf
  | String "-" s' => (fun q => round64 (Qopp q)) <$> decimal s' 0 1 false false
  | _ => round64 <$> decimal s 0 1 false false
  end.

(** The layout of a timestamp: a date alone, or a date, a separator and a
    time, with or without a zone. *)
Inductive Layout :=
| DateOnly
| DateTime (sep : ascii) (zone : bool).

Definition layout (s : string) : option Layout :=
  '(_, r) ← parse_date s;
  match r with
  | EmptyString => Some DateOnly
  | String sep r' =>
      if Ascii.eqb sep "T" || Ascii.eqb sep " " then
        '(_, z) ← parse_hms r';
        Some (DateTime sep (negb (String.eqb z "")))
      else None
  end.

Definition same_layout (a b : Layout) : bool :=
  match a, b with
  | DateOnly, DateOnly => true
  | DateTime s1 z1, DateTime s2 z2 => Ascii.eqb s1 s2 && Bool.eqb z1 z2
  | _, _ => false
  end.

(** The first cell of a column that is not empty. *)
Fixpoint first_text (col : list string) : option string :=
  match col with
  | [] => None
  | c :: col' => if String.eqb c "" then first_text col' else Some c
  end.

(** A cell of a column of timestamps: read in the layout of the first
    cell; when that cell shows no layout each cell is read on its own. *)
Definition column_timestamp (col : list string) (s : string) : option Z :=
  match first_text col ≫= layout with
  | Some l =>
      match layout s with
      | Some l' => if same_layout l l' then parse_timestamp s else None
      | None => None
      end
  | None => parse_timestamp s
  end.

(** At least one and at most fifteen digits. *)
Fixpoint natural (s : string) (acc : Z) (len : nat) : option Z :=
  match s with
  | EmptyString =>
      if (1 <=? len)%nat && (len <=? 15)%nat then Some acc else None
  | String c s' =>
      match digit c with
      | Some d => natural s' (10 * acc + d) (S len)
      | None => None
      end
  end.

Definition integer (s : string) : option Z :=
  match s with
  | String "-" s' => Z.opp <$> natural s' 0 0
  | _ => natural s 0 0
  end.

Definition print_integer (z : Z) : string :=
  NilEmpty.string_of_int (Z.to_int z).

Inductive Dtype := Int64 | Float64 | Object.

(** The type [read_csv] gives to a column. *)
Definition dtype (col : list string) : Dtype :=
  if forallb (fun c => bool_decide (is_Some (integer c))) col
     && negb (bool_decide (col = []))
  then Int64
  else if forallb (fun c => String.eqb c "" || bool_decide (is_Some (integer c))) col
  then Float64
  else Object.

(** [astype(str)] of a cell of a column of text. *)
Definition cell_text (s : string) : string :=
  match s with
  | EmptyString => "nan"
  | _ => s
  end.

(** [astype(str)] of a cell of a column. *)
Definition column_text (col : list string) (s : string) : string :=
  match dtype col, integer s with
  | Int64, Some z => print_integer z
  | Float64, Some z => print_integer z +:+ ".0"
  | _, _ => cell_text s
  end.

End Iso.

(** The text of a date without time, as a request or a file spells it. *)
Module IsoText.
Import Iso.
Local Open Scope Z_scope.

Definition digit_char (k : Z) : ascii := ascii_of_N (Z.to_N (48 + k)).

Definition two_digits (n : Z) : string :=
  String (digit_char (n / 10)) (String (digit_char (n mod 10)) "").

Definition four_digits (n : Z) : string :=
  String (digit_char (n / 1000))
    (String (digit_char (n / 100 mod 10))
       (String (digit_char (n / 10 mod 10))
          (String (digit_char (n mod 10)) ""))).

(** The date-only text [YYYY-MM-DD]. *)
Definition date_text (y m d : Z) : string :=
  four_digits y +:+ "-" +:+ two_digits m +:+ "-" +:+ two_digits d.

(** A day of the calendar, with a year of four digits. *)
Definition civil (y m d : Z) : Prop :=
  0 <= y <= 9999 /\ 1 <= m <= 12 /\ 1 <= d <= days_in_month y m.

End IsoText.

#[export] Instance iso_pandas : Pandas := {|
  to_datetime := Iso.parse_timestamp;
  column_to_datetime := Iso.column_timestamp;
  column_to_numeric := fun _ => Iso.parse_number;
  column_astype_str := Iso.column_text;
  series_mean := Iso.mean;
|}.

(** ** Text that differs only in casing and surrounding whitespace *)

(** [same_text a b]: both parameters are missing, or both are present and
    each is a core text between two runs of whitespace, the two cores equal
    up to the case of their letters. *)
Inductive same_text : option string -> option string -> Prop :=
| same_missing : same_text None None
| same_present (pre1 core1 post1 pre2 core2 post2 : string) :
    PyStr.all_space pre1 = true -> PyStr.all_space post1 = true ->
    PyStr.all_space pre2 = true -> PyStr.all_space post2 = true ->
    PyStr.lower core1 = PyStr.lower core2 ->
    same_text (Some (pre1 +:+ core1 +:+ post1)) (Some (pre2 +:+ core2 +:+ post2)).

(** ** Which readings match, which rows load *)

(** What the code takes as a present criterion: a location or sensor
    parameter that is passed and is not the empty string, a date parameter
    that [_parse_iso] turns into an instant. *)
Section Criteria.

Context `{pd : Pandas}.

(** The location (or sensor) criterion, if present, holds of the normalized
    column [col]: exact equality with the trimmed, case-folded parameter. *)
Definition text_criterion (param : option string) (col : string) : Prop :=
  forall s, param = Some s -> s <> "" -> col = PyStr.lower (PyStr.strip s).

(** The start bound, if present, holds of the timestamp [ts]. *)
Definition from_criterion (start_date : option string) (ts : Z) : Prop :=
  forall t, _parse_iso start_date = Some t -> (t <= ts)%Z.

(** The end bound, if present, holds of the timestamp [ts]. *)
Definition until_criterion (end_date : option string) (ts : Z) : Prop :=
  forall t, _parse_iso end_date = Some t -> (ts <= t)%Z.

(** A reading matches when every present criterion holds. *)
Definition matches (location sensor start_date end_date : option string)
    (r : Reading) : Prop :=
  text_criterion location (location_norm r) /\
  text_criterion sensor (sensor_norm r) /\
  from_criterion start_date (timestamp r) /\
  until_criterion end_date (timestamp r).

(** The timestamp cell or the value cell of [row], a row of the file whose
    rows are [rows], cannot be read. *)
Definition invalid_row (cols : list string) (rows : list (list string))
    (row : list string) : Prop :=
  column_to_datetime (column cols rows "timestamp") (cell cols row "timestamp")
  = None \/
  column_to_numeric (column cols rows "value") (cell cols row "value") = None.

(** What the two passes of [load_data] make of one row of the file whose
    rows are [rows]. *)
Definition reading_of (cols : list string) (rows : list (list string))
    (row : list string) : option Reading :=
  match column_to_datetime (column cols rows "timestamp")
          (cell cols row "timestamp"),
        column_to_numeric (column cols rows "value") (cell cols row "value") with
  | Some ts, Some v =>
      Some {| timestamp := ts;
              location := cell cols row "location";
              sensor := cell cols row "sensor";
              value := v;
              location_norm :=
                PyStr.lower (PyStr.strip
                  (column_astype_str (column cols rows "location")
                     (cell cols row "location")));
              sensor_norm :=
                PyStr.lower (PyStr.strip
                  (column_astype_str (column cols rows "sensor")
                     (cell cols row "sensor"))) |}
  | _, _ => None
  end.

#[export] Instance text_criterion_dec param col : Decision (text_criterion param col).
Proof.
  unfold text_criterion. destruct param as [[|c s]|].
  - left. intros s E Hs. congruence.
  - destruct (decide (col = PyStr.lower (PyStr.strip (String c s)))) as [E|N].
    + left. intros s' E' _. congruence.
    + right. intros Hc. apply N, Hc; [reflexivity | discriminate].
  - left. discriminate.
Defined.

#[export] Instance from_criterion_dec start_date ts : Decision (from_criterion start_date ts).
Proof.
  unfold from_criterion. destruct (_parse_iso start_date) as [t|].
  - destruct (decide (t <= ts)%Z) as [L|N].
    + left. intros t' E. congruence.
    + right. intros Hc. now apply N, Hc.
  - left. discriminate.
Defined.

#[export] Instance until_criterion_dec end_date ts : Decision (until_criterion end_date ts).
Proof.
  unfold until_criterion. destruct (_parse_iso end_date) as [t|].
  - destruct (decide (ts <= t)%Z) as [L|N].
    + left. intros t' E. congruence.
    + right. intros Hc. now apply N, Hc.
  - left. discriminate.
Defined.

#[export] Instance matches_dec location sensor start_date end_date r :
  Decision (matches location sensor start_date end_date r).
Proof. unfold matches. apply _. Defined.

#[export] Instance invalid_row_dec cols rows row :
  Decision (invalid_row cols rows row).
Proof. unfold invalid_row. apply _. Defined.

End Criteria.

(** ** Files, readings and requests of the concrete cases *)

(** The file of the concrete case: three readings of the sensor [temp]. *)
Definition temp_csv : Frame := {|
  columns := ["timestamp"; "location"; "sensor"; "value"];
  records := [ ["2024-01-10T08:00:00Z"; "Building A"; "temp"; "10"];
               ["2024-01-11T08:00:00Z"; "Building A"; "temp"; "20"];
               ["2024-01-12T08:00:00Z"; "Building B"; "temp"; "30"] ];
|}.

(** The first reading of [temp_csv] is at 2024-01-10T08:00:00Z. *)
Definition first_temp : Reading := {|
  timestamp := 1704873600000000000;
  location := "Building A";
  sensor := "temp";
  value := Fin 10;
  location_norm := "building a";
  sensor_norm := "temp";
|}.

(** A file with one reading, at noon of 2024-01-31. *)
Definition noon_csv : Frame := {|
  columns := ["timestamp"; "location"; "sensor"; "value"];
  records := [ ["2024-01-31T12:00:00Z"; "Building A"; "temp"; "10"] ];
|}.

(** A file without the [value] column. *)
Definition no_value_csv : Frame := {|
  columns := ["timestamp"; "location"; "sensor"];
  records := [ ["2024-01-10T08:00:00Z"; "Building A"; "temp"] ];
|}.


Definition by_location (location : option string) : Request :=
  {| q_location := location; q_sensor := None;
     q_start_date := None; q_end_date := None |}.

(** ** States of a running process *)

(** The states a process goes through: it starts in [init] and serves
    requests one after the other, the file being whatever it is when each
    request is served. *)
Inductive reachable `{pd : Pandas} : State -> Prop :=
| reachable_init : reachable init
| reachable_stats (src : Frame) (st : State)
    (location sensor start_date end_date : option string) :
    reachable st ->
    reachable (snd (stats src st location sensor start_date end_date)).

(** An ASCII capital letter. *)
Definition is_upper (c : ascii) : bool :=
  let n := N_of_ascii c in (65 <=? n)%N && (n <=? 90)%N.

(** The characters of a text. *)
Fixpoint chars (s : string) : list ascii :=
  match s with
  | EmptyString => []
  | String c s' => c :: chars s'
  end.

(** [{"count": 0, "avg": None, "min": None, "max": None}] *)
Definition no_stats : Stats :=
  {| st_count := 0; st_avg := None; st_min := None; st_max := None |}.

(** A file in which no row can be read. *)
Definition unreadable_csv : Frame := {|
  columns := ["timestamp"; "location"; "sensor"; "value"];
  records := [ ["yesterday"; "Building A"; "temp"; "20"];
               ["2024-01-12T08:00:00Z"; "Building B"; "temp"; "n/a"] ];
|}.

(** [temp_csv] with a column more, in front. *)
Definition wide_csv : Frame := {|
  columns := "unit" :: columns temp_csv;
  records := map (fun row => "C" :: row) (records temp_csv);
|}.

(** A file whose location cells differ in casing and blanks. *)
Definition spaced_csv : Frame := {|
  columns := ["timestamp"; "location"; "sensor"; "value"];
  records := [ ["2024-01-10T08:00:00Z"; "  Building A"; "temp"; "10"];
               ["2024-01-11T08:00:00Z"; "BUILDING a "; "temp"; "20"];
               ["2024-01-12T08:00:00Z"; "Building B"; "temp"; "30"] ];
|}.

(** Two optional floats are both absent, or both present and equal as
    numbers. *)
Definition same_number (o1 o2 : option F64) : Prop :=
  match o1, o2 with
  | Some (Number x), Some (Number y) => Num_le x y /\ Num_le y x
  | Some NaN, Some NaN => True
  | None, None => True
  | _, _ => False
  end.

(** A file with a reading whose value is infinite. *)
Definition inf_csv : Frame := {|
  columns := ["timestamp"; "location"; "sensor"; "value"];
  records := [ ["2024-01-10T08:00:00Z"; "Building A"; "temp"; "10"];
               ["2024-01-11T08:00:00Z"; "Building A"; "temp"; "inf"] ];
|}.

(** A file whose values are finite and whose sum is not: twice [10^308],
    written out in full. *)
Definition huge_csv : Frame := {|
  columns := ["timestamp"; "location"; "sensor"; "value"];
  records :=
    [ ["2024-01-10T08:00:00Z"; "Building A"; "temp";
       "100000000000000000000000000000000000000000000000000000000000000000000000000000000000000000000000000000000000000000000000000000000000000000000000000000000000000000000000000000000000000000000000000000000000000000000000000000000000000000000000000000000000000000000000000000000000000000000000000000000000000000000.0"];
      ["2024-01-11T08:00:00Z"; "Building A"; "temp";
       "100000000000000000000000000000000000000000000000000000000000000000000000000000000000000000000000000000000000000000000000000000000000000000000000000000000000000000000000000000000000000000000000000000000000000000000000000000000000000000000000000000000000000000000000000000000000000000000000000000000000000000000.0"] ];
|}.

(** Three readings of one tenth. *)
Definition tenths_csv : Frame := {|
  columns := ["timestamp"; "location"; "sensor"; "value"];
  records := [ ["2024-01-10T08:00:00Z"; "Building A"; "temp"; "0.1"];
               ["2024-01-11T08:00:00Z"; "Building A"; "temp"; "0.1"];
               ["2024-01-12T08:00:00Z"; "Building A"; "temp"; "0.1"] ];
|}.

(** A file whose location column holds whole numbers only: read as
    integers, its cells are [7] and [12]. *)
Definition coded_csv : Frame := {|
  columns := ["timestamp"; "location"; "sensor"; "value"];
  records := [ ["2024-01-10T08:00:00Z"; "007"; "temp"; "10"];
               ["2024-01-11T08:00:00Z"; "12"; "temp"; "20"] ];
|}.

(** * Properties *)

Example strip_ex : PyStr.strip "  Building A  " = "Building A".
Proof. reflexivity. Qed.

Example key_ex :
  _cache_key (Some "Building A") None (Some " 2024-01-01T00:00:00Z") (Some "")
  = (Some "building a", None, Some "2024-01-01t00:00:00z", Some "").
Proof. reflexivity. Qed.

(** ** Properties of the string operations *)

Module PyStrFacts.
Import PyStr.

Lemma app_nil s : "" +:+ s = s.
Proof. reflexivity. Qed.

Lemma app_cons c s t : String c s +:+ t = String c (s +:+ t).
Proof. reflexivity. Qed.

Lemma is_space_lower_char c : is_space (lower_char c) = is_space c.
Proof. destruct c as [[] [] [] [] [] [] [] []]; reflexivity. Qed.

Lemma lower_char_idem c : lower_char (lower_char c) = lower_char c.
Proof. destruct c as [[] [] [] [] [] [] [] []]; reflexivity. Qed.

Lemma lower_app s t : lower (s +:+ t) = lower s +:+ lower t.
Proof. induction s as [|c s IH]; simpl; [reflexivity | now rewrite IH]. Qed.

Lemma lower_idem s : lower (lower s) = lower s.
Proof.
  induction s as [|c s IH]; simpl; [reflexivity|].
  now rewrite lower_char_idem, IH.
Qed.

Lemma all_space_lower s : all_space (lower s) = all_space s.
Proof.
  induction s as [|c s IH]; simpl; [reflexivity|].
  now rewrite is_space_lower_char, IH.
Qed.

Lemma lstrip_lower s : lstrip (lower s) = lower (lstrip s).
Proof.
  induction s as [|c s IH]; simpl; [reflexivity|].
  rewrite is_space_lower_char. destruct (is_space c); [exact IH | reflexivity].
Qed.

Lemma rstrip_lower s : rstrip (lower s) = lower (rstrip s).
Proof.
  induction s as [|c s IH]; simpl; [reflexivity|].
  rewrite IH, is_space_lower_char.
  destruct (rstrip s); simpl; [destruct (is_space c)|]; reflexivity.
Qed.

Lemma strip_lower s : strip (lower s) = lower (strip s).
Proof. unfold strip. now rewrite lstrip_lower, rstrip_lower. Qed.

Lemma lstrip_spaces_app pre s :
  all_space pre = true -> lstrip (pre +:+ s) = lstrip s.
Proof.
  induction pre as [|c pre IH]; simpl; [reflexivity|].
  intros [Hc Hpre]%andb_prop. rewrite Hc. auto.
Qed.

Lemma lstrip_spaces s : all_space s = true -> lstrip s = "".
Proof.
  induction s as [|c s IH]; simpl; [reflexivity|].
  intros [Hc Hs]%andb_prop. rewrite Hc. auto.
Qed.

Lemma rstrip_spaces post : all_space post = true -> rstrip post = "".
Proof.
  induction post as [|c post IH]; simpl; [reflexivity|].
  intros [Hc Hpost]%andb_prop. now rewrite IH, Hc.
Qed.

Lemma rstrip_app_spaces s post :
  all_space post = true -> rstrip (s +:+ post) = rstrip s.
Proof.
  intros Hpost. induction s as [|c s IH]; simpl.
  - now apply rstrip_spaces.
  - now rewrite IH.
Qed.

Lemma strip_app_spaces s post :
  all_space post = true -> strip (s +:+ post) = strip s.
Proof.
  intros Hpost. unfold strip. induction s as [|c s IH]; simpl.
  - now rewrite app_nil, (lstrip_spaces post Hpost).
  - destruct (is_space c); [exact IH|].
    now apply (rstrip_app_spaces (String c s)).
Qed.

Lemma strip_surrounded pre core post :
  all_space pre = true -> all_space post = true ->
  strip (pre +:+ core +:+ post) = strip core.
Proof.
  intros Hpre Hpost. unfold strip at 1.
  rewrite (lstrip_spaces_app pre _ Hpre).
  now apply strip_app_spaces.
Qed.

Lemma lstrip_split s :
  exists pre, all_space pre = true /\ s = pre +:+ lstrip s.
Proof.
  induction s as [|c s [pre [Hpre Hs]]]; simpl.
  - now exists "".
  - destruct (is_space c) eqn:Hc.
    + exists (String c pre). rewrite app_cons. simpl.
      rewrite Hc, Hpre. split; [reflexivity|]. now f_equal.
    + now exists "".
Qed.

Lemma rstrip_split s :
  exists post, all_space post = true /\ s = rstrip s +:+ post.
Proof.
  induction s as [|c s [post [Hpost Hs]]]; simpl.
  - now exists "".
  - destruct (rstrip s) as [|a t] eqn:Hr.
    + rewrite app_nil in Hs. subst post.
      destruct (is_space c) eqn:Hc.
      * exists (String c s). simpl. now rewrite Hc, Hpost.
      * now exists s.
    + exists post. split; [assumption|]. rewrite app_cons. now f_equal.
Qed.

(** Every text is its stripped core between two runs of whitespace. *)
Lemma strip_split s :
  exists pre post,
    all_space pre = true /\ all_space post = true /\
    s = pre +:+ strip s +:+ post.
Proof.
  destruct (lstrip_split s) as [pre [Hpre Hs]].
  destruct (rstrip_split (lstrip s)) as [post [Hpost Hl]].
  exists pre, post. repeat split; try assumption.
  unfold strip. now rewrite <- Hl.
Qed.

End PyStrFacts.

(** ** Properties of the cache key *)

Lemma norm_same_text a b : same_text a b -> norm a = norm b.
Proof.
  intros [|pre1 core1 post1 pre2 core2 post2 H1 H2 H3 H4 Hcore]; [reflexivity|].
  simpl. f_equal.
  rewrite !PyStrFacts.strip_surrounded by assumption.
  rewrite <- !PyStrFacts.strip_lower. now rewrite Hcore.
Qed.

(** The converse: equal normal forms come from texts that differ only in
    casing and surrounding whitespace. *)
Lemma same_text_norm a b : norm a = norm b -> same_text a b.
Proof.
  destruct a as [s1|], b as [s2|]; simpl; intros E; try discriminate;
    [|constructor].
  injection E as E.
  destruct (PyStrFacts.strip_split s1) as (pre1 & post1 & Hp1 & Hq1 & E1).
  destruct (PyStrFacts.strip_split s2) as (pre2 & post2 & Hp2 & Hq2 & E2).
  rewrite E1, E2. now constructor.
Qed.

(** C1, as stated, fails: the two spellings [2024-01-01T00:00:00Z] and
    [2024-01-01T00:00:00+00:00] of one instant give requests with the same
    criteria and different cache keys, the key holding the text of the
    date and not the instant it parses to. *)
Lemma cache_key_iso_spellings_differ :
  let q1 := {| q_location := None; q_sensor := None;
               q_start_date := Some "2024-01-01T00:00:00Z"; q_end_date := None |} in
  let q2 := {| q_location := None; q_sensor := None;
               q_start_date := Some "2024-01-01T00:00:00+00:00"; q_end_date := None |} in
  _parse_iso (pd := iso_pandas) (q_start_date q1) = Some 1704067200000000000%Z /\
  same_criteria (pd := iso_pandas) q1 q2 /\
  request_key q1 <> request_key q2.
Proof.
  cbv zeta. split; [reflexivity|]. split.
  - repeat split.
  - discriminate.
Qed.

(** C1, amended: requests whose parameters differ only in casing and
    surrounding whitespace of their text (a missing parameter only matching a
    missing one), the two dates compared as text like the location and the
    sensor, have identical cache keys. *)
Theorem cache_key_same_text (l1 s1 a1 b1 l2 s2 a2 b2 : option string) :
  same_text l1 l2 -> same_text s1 s2 -> same_text a1 a2 -> same_text b1 b2 ->
  _cache_key l1 s1 a1 b1 = _cache_key l2 s2 a2 b2.
Proof.
  intros Hl Hs Ha Hb. unfold _cache_key.
  now rewrite (norm_same_text _ _ Hl), (norm_same_text _ _ Hs),
    (norm_same_text _ _ Ha), (norm_same_text _ _ Hb).
Qed.

Lemma cache_key_same_text_witness :
  _cache_key (Some "Building A") None (Some "2024-01-01T00:00:00Z") (Some "2024-01-31")
  = _cache_key (Some "  building a ") None (Some " 2024-01-01t00:00:00z") (Some "2024-01-31  ").
Proof.
  apply cache_key_same_text.
  - exact (same_present "" "Building A" "" "  " "building a" " "
             eq_refl eq_refl eq_refl eq_refl eq_refl).
  - exact same_missing.
  - exact (same_present "" "2024-01-01T00:00:00Z" "" " " "2024-01-01t00:00:00z" ""
             eq_refl eq_refl eq_refl eq_refl eq_refl).
  - exact (same_present "" "2024-01-31" "" "" "2024-01-31" "  "
             eq_refl eq_refl eq_refl eq_refl eq_refl).
Defined.

(** X19: only such requests share a key: when two requests have the same
    cache key, each parameter is missing in both, or present in both with
    texts that differ only in casing and surrounding whitespace. *)
Lemma cache_key_only_same_text (l1 s1 a1 b1 l2 s2 a2 b2 : option string) :
  _cache_key l1 s1 a1 b1 = _cache_key l2 s2 a2 b2 ->
  same_text l1 l2 /\ same_text s1 s2 /\ same_text a1 a2 /\ same_text b1 b2.
Proof.
  unfold _cache_key. intros E. injection E as El Es Ea Eb.
  repeat split; now apply same_text_norm.
Qed.

(** ** The query: which readings match *)

Lemma filter_all {A} (P : A -> Prop) `{!forall x, Decision (P x)} (l : list A) :
  (forall x, P x) -> filter P l = l.
Proof.
  intros HP. induction l as [|x l IH]; [reflexivity|].
  rewrite filter_cons_True by apply HP. now f_equal.
Qed.

Section Matching.

Context `{pd : Pandas}.

Lemma where_eq_criterion (col : Reading -> string) param (flt : DataFrame) :
  where_eq col param flt = filter (fun r => text_criterion param (col r)) flt.
Proof.
  unfold where_eq. destruct param as [[|c s]|].
  - symmetry. apply filter_all. intros r s E. congruence.
  - apply list_filter_iff. intros r. split.
    + intros E s' E' _. congruence.
    + intros Hc. apply Hc; [reflexivity | discriminate].
  - symmetry. apply filter_all. intros r s. discriminate.
Qed.

Lemma where_ge_criterion start_date (flt : DataFrame) :
  where_ge (_parse_iso start_date) flt
  = filter (fun r => from_criterion start_date (timestamp r)) flt.
Proof.
  unfold where_ge. destruct (_parse_iso start_date) as [t|] eqn:E.
  - apply list_filter_iff. intros r. unfold from_criterion. rewrite E. split.
    + intros L t' E'. congruence.
    + intros Hc. now apply Hc.
  - symmetry. apply filter_all. intros r t. congruence.
Qed.

Lemma where_le_criterion end_date (flt : DataFrame) :
  where_le (_parse_iso end_date) flt
  = filter (fun r => until_criterion end_date (timestamp r)) flt.
Proof.
  unfold where_le. destruct (_parse_iso end_date) as [t|] eqn:E.
  - apply list_filter_iff. intros r. unfold until_criterion. rewrite E. split.
    + intros L t' E'. congruence.
    + intros Hc. now apply Hc.
  - symmetry. apply filter_all. intros r t. congruence.
Qed.

(** The four successive selections of [stats] keep exactly the matching
    readings, in the order of the table. *)
Lemma filter_rows_matches (df : DataFrame) location sensor start_date end_date :
  filter_rows df location sensor start_date end_date
  = filter (matches location sensor start_date end_date) df.
Proof.
  unfold filter_rows.
  rewrite where_le_criterion, where_ge_criterion, !where_eq_criterion.
  rewrite !list_filter_filter.
  apply list_filter_iff. intros r. unfold matches. tauto.
Qed.

Lemma elem_of_filter_rows (df : DataFrame) location sensor start_date end_date r :
  r ∈ filter_rows df location sensor start_date end_date
  <-> r ∈ df /\ matches location sensor start_date end_date r.
Proof. rewrite filter_rows_matches, list_elem_of_filter. tauto. Qed.

End Matching.

(** ** Properties of the aggregates *)

Lemma Num_le_refl (x : Num) : Num_le x x.
Proof.
  destruct x; try reflexivity. unfold Num_le. simpl.
  apply Qle_bool_iff, Qle_refl.
Qed.

Lemma Num_le_trans (x y z : Num) : Num_le x y -> Num_le y z -> Num_le x z.
Proof.
  unfold Num_le. destruct x, y, z; simpl; try congruence.
  rewrite !Qle_bool_iff. apply Qle_trans.
Qed.

Lemma Num_le_total (x y : Num) : Num_le x y \/ Num_le y x.
Proof.
  unfold Num_le. destruct x as [|a|], y as [|b|]; simpl; auto.
  rewrite !Qle_bool_iff. destruct (Qlt_le_dec a b) as [H|H]; [left|right]; auto.
  now apply Qlt_le_weak.
Qed.

Lemma Num_min_cases (x y : Num) : Num_min x y = x \/ Num_min x y = y.
Proof. unfold Num_min. destruct (Num_leb x y); auto. Qed.

Lemma Num_max_cases (x y : Num) : Num_max x y = x \/ Num_max x y = y.
Proof. unfold Num_max. destruct (Num_leb x y); auto. Qed.

Lemma Num_min_l (x y : Num) : Num_le (Num_min x y) x.
Proof.
  unfold Num_min. destruct (Num_leb x y) eqn:E; [apply Num_le_refl|].
  destruct (Num_le_total x y) as [H|H]; [unfold Num_le in H; congruence | exact H].
Qed.

Lemma Num_min_r (x y : Num) : Num_le (Num_min x y) y.
Proof.
  unfold Num_min. destruct (Num_leb x y) eqn:E; [exact E | apply Num_le_refl].
Qed.

Lemma Num_max_l (x y : Num) : Num_le x (Num_max x y).
Proof.
  unfold Num_max. destruct (Num_leb x y) eqn:E; [exact E | apply Num_le_refl].
Qed.

Lemma Num_max_r (x y : Num) : Num_le y (Num_max x y).
Proof.
  unfold Num_max. destruct (Num_leb x y) eqn:E; [apply Num_le_refl|].
  destruct (Num_le_total x y) as [H|H]; [unfold Num_le in H; congruence | exact H].
Qed.

Lemma fold_min_spec (vs : list Num) (v : Num) :
  let m := fold_left Num_min vs v in
  m ∈ v :: vs /\ forall x, x ∈ v :: vs -> Num_le m x.
Proof.
  revert v. induction vs as [|a vs IH]; intros v; simpl.
  - split; [left|]. intros x ->%list_elem_of_singleton. apply Num_le_refl.
  - destruct (IH (Num_min v a)) as [Hin Hle]. split.
    + apply elem_of_cons in Hin as [E|Hin].
      * rewrite E. destruct (Num_min_cases v a) as [-> | ->];
          [left | right; left].
      * right; right. exact Hin.
    + intros x Hx.
      assert (Hm : Num_le (fold_left Num_min vs (Num_min v a)) (Num_min v a))
        by (apply Hle; left).
      apply elem_of_cons in Hx as [-> | Hx].
      { eapply Num_le_trans; [exact Hm | apply Num_min_l]. }
      apply elem_of_cons in Hx as [-> | Hx].
      { eapply Num_le_trans; [exact Hm | apply Num_min_r]. }
      apply Hle. now right.
Qed.

Lemma fold_max_spec (vs : list Num) (v : Num) :
  let m := fold_left Num_max vs v in
  m ∈ v :: vs /\ forall x, x ∈ v :: vs -> Num_le x m.
Proof.
  revert v. induction vs as [|a vs IH]; intros v; simpl.
  - split; [left|]. intros x ->%list_elem_of_singleton. apply Num_le_refl.
  - destruct (IH (Num_max v a)) as [Hin Hle]. split.
    + apply elem_of_cons in Hin as [E|Hin].
      * rewrite E. destruct (Num_max_cases v a) as [-> | ->];
          [left | right; left].
      * right; right. exact Hin.
    + intros x Hx.
      assert (Hm : Num_le (Num_max v a) (fold_left Num_max vs (Num_max v a)))
        by (apply Hle; left).
      apply elem_of_cons in Hx as [-> | Hx].
      { eapply Num_le_trans; [apply Num_max_l | exact Hm]. }
      apply elem_of_cons in Hx as [-> | Hx].
      { eapply Num_le_trans; [apply Num_max_r | exact Hm]. }
      apply Hle. now right.
Qed.

(** C2, as stated, fails for the average: the three readings of
    [tenths_csv] have the same value, the float64 nearest to one tenth, which
    is then their arithmetic mean, their minimum and their maximum; the
    average of the answer is the next float64 above it, since the sum is
    rounded before it is divided. *)
Lemma average_is_rounded :
  let df := with_value (pd := iso_pandas) (columns tenths_csv)
              (with_timestamp (columns tenths_csv) (records tenths_csv)) in
  exists tenth avg : Q,
    map value df = [Fin tenth; Fin tenth; Fin tenth] /\
    fst (stats (pd := iso_pandas) tenths_csv init None None None None)
    = inr {| content :=
               {| p_stats := {| st_count := 3;
                                st_avg := Some (Number (Fin avg));
                                st_min := Some (Number (Fin tenth));
                                st_max := Some (Number (Fin tenth)) |} |};
             x_cache := MISS |} /\
    (tenth < avg)%Q /\
    ~ ((tenth + tenth + tenth) / 3 == avg)%Q.
Proof.
  cbv zeta. exists (3602879701896397 # 36028797018963968). eexists.
  split; [vm_compute; reflexivity|]. split; [vm_compute; reflexivity|].
  split; [reflexivity|]. intros H. vm_compute in H. discriminate.
Qed.

(** C2, amended: the count is the number of readings of the table for which
    every present criterion holds; with no such reading the average, minimum
    and maximum are absent; otherwise the average is the mean, as pandas
    takes it in float64, of the values of exactly those readings, and the
    minimum and maximum are values of those readings that bound all of them.
    For the three readings 10, 20, 30 of [temp_csv], all in the window asked
    for, the first answer is count 3, average 20.0, minimum 10.0 and maximum
    30.0. *)
Theorem stats_aggregate_correct :
  (forall (P : Pandas) (df : DataFrame)
          (location sensor start_date end_date : option string),
     let m := filter (matches location sensor start_date end_date) df in
     let s := compute df location sensor start_date end_date in
     st_count s = length m /\
     (st_count s = 0 -> st_avg s = None /\ st_min s = None /\ st_max s = None) /\
     (st_count s <> 0 ->
      exists lo hi,
        st_avg s = Some (series_mean (map value m)) /\
        st_min s = Some (Number lo) /\ st_max s = Some (Number hi) /\
        lo ∈ map value m /\ (forall v, v ∈ map value m -> Num_le lo v) /\
        hi ∈ map value m /\ (forall v, v ∈ map value m -> Num_le v hi))) /\
  fst (stats (pd := iso_pandas) temp_csv init
         None (Some "temp") (Some "2024-01-01") (Some "2024-01-31T23:59:59Z"))
  = inr {| content :=
             {| p_stats := {| st_count := 3;
                              st_avg := Some (Number (Fin 20));
                              st_min := Some (Number (Fin 10));
                              st_max := Some (Number (Fin 30)) |} |};
           x_cache := MISS |}.
Proof.
  split.
  - intros P df location sensor start_date end_date m s. subst s.
    unfold compute. rewrite filter_rows_matches. fold m.
    destruct m as [|r m']; simpl.
    + repeat split; congruence.
    + split; [now rewrite length_map|]. split; [discriminate|]. intros _.
      set (vals := map value m').
      destruct (fold_min_spec vals (value r)) as [Hlo Hlo'].
      destruct (fold_max_spec vals (value r)) as [Hhi Hhi'].
      eexists _, _. repeat split; assumption.
  - vm_compute. reflexivity.
Qed.

(** ** The response cache *)

Section Cache.

Context `{pd : Pandas}.

Lemma JSONResponse_ok (payload : Payload) (x : XCache) :
  json_compliant payload = true ->
  JSONResponse payload x = inr {| content := payload; x_cache := x |}.
Proof. intros H. unfold JSONResponse. now rewrite H. Qed.

Lemma JSONResponse_raises (payload : Payload) (x : XCache) :
  json_compliant payload = false ->
  JSONResponse payload x = inl OutOfRangeFloat.
Proof. intros H. unfold JSONResponse. now rewrite H. Qed.

Lemma JSONResponse_inr (payload : Payload) (x : XCache) (resp : Response) :
  JSONResponse payload x = inr resp ->
  resp = {| content := payload; x_cache := x |} /\ json_compliant payload = true.
Proof.
  unfold JSONResponse. destruct (json_compliant payload); [|discriminate].
  now intros [= <-].
Qed.

(** A request whose key is stored is answered from the cache, whatever the
    file holds: the table is neither loaded nor scanned, the state is left as
    it is. *)
Lemma stats_hit (src : Frame) (st : State) (payload : Payload)
    (location sensor start_date end_date : option string) :
  cache st !! _cache_key location sensor start_date end_date = Some payload ->
  stats src st location sensor start_date end_date
  = (JSONResponse payload HIT, st).
Proof. intros Hk. unfold stats. now rewrite Hk. Qed.

(** A request whose key is not stored, on a table that loads, is computed
    and stored under its key. *)
Lemma stats_miss (src : Frame) (st st1 : State) (df : DataFrame)
    (location sensor start_date end_date : option string) :
  cache st !! _cache_key location sensor start_date end_date = None ->
  load_data src st = (inr df, st1) ->
  stats src st location sensor start_date end_date
  = (JSONResponse
       {| p_stats := compute df location sensor start_date end_date |} MISS,
     {| loaded := loaded st1;
        cache := <[_cache_key location sensor start_date end_date :=
                     {| p_stats := compute df location sensor start_date end_date |}]>
                 (cache st1) |}).
Proof. intros Hk Hl. unfold stats. now rewrite Hk, Hl. Qed.

Lemma load_data_cache (src : Frame) (st : State) :
  cache (snd (load_data src st)) = cache st.
Proof.
  unfold load_data. destruct (loaded st); [reflexivity|].
  now destruct (load_data_body src).
Qed.

End Cache.




(** ** The time window *)

(** C4: a reading of the table whose timestamp is exactly the instant the
    start date parses to, or exactly the instant the end date parses to, and
    for which the other present criteria hold, is among the readings the
    stats are computed from; the count is then not zero. *)
Theorem window_is_inclusive `{pd : Pandas} (df : DataFrame) (r : Reading)
    (location sensor start_date end_date : option string) :
  r ∈ df ->
  text_criterion location (location_norm r) ->
  text_criterion sensor (sensor_norm r) ->
  (_parse_iso start_date = Some (timestamp r) /\
   until_criterion end_date (timestamp r)) \/
  (_parse_iso end_date = Some (timestamp r) /\
   from_criterion start_date (timestamp r)) ->
  r ∈ filter_rows df location sensor start_date end_date /\
  st_count (compute df location sensor start_date end_date) <> 0.
Proof.
  intros Hin Hloc Hsen Hbound.
  assert (Hr : r ∈ filter_rows df location sensor start_date end_date).
  { apply elem_of_filter_rows. split; [assumption|].
    repeat split; try assumption.
    - destruct Hbound as [[Hs _]|[_ Hf]]; [|assumption].
      intros t Ht. rewrite Hs in Ht. injection Ht as <-. lia.
    - destruct Hbound as [[_ Hu]|[He _]]; [assumption|].
      intros t Ht. rewrite He in Ht. injection Ht as <-. lia. }
  split; [assumption|].
  unfold compute.
  destruct (filter_rows df location sensor start_date end_date);
    [now apply elem_of_nil in Hr | discriminate].
Qed.

Lemma window_is_inclusive_witness :
  let df := with_value (pd := iso_pandas) (columns temp_csv)
              (with_timestamp (columns temp_csv) (records temp_csv)) in
  (first_temp ∈ filter_rows df None (Some "Temp") (Some "2024-01-10T08:00:00Z") None /\
   st_count (compute df None (Some "Temp") (Some "2024-01-10T08:00:00Z") None) <> 0) /\
  (first_temp ∈ filter_rows df None None (Some "2024-01-01") (Some "2024-01-10 08:00:00") /\
   st_count (compute df None None (Some "2024-01-01") (Some "2024-01-10 08:00:00")) <> 0).
Proof.
  cbv zeta. split.
  - apply (window_is_inclusive (pd := iso_pandas)).
    + vm_compute. left.
    + intros s E Hs. discriminate.
    + intros s E Hs. injection E as <-. reflexivity.
    + left. split; [reflexivity|]. intros t E. discriminate.
  - apply (window_is_inclusive (pd := iso_pandas)).
    + vm_compute. left.
    + intros s E Hs. discriminate.
    + intros s E Hs. discriminate.
    + right. split; [reflexivity|]. intros t E. injection E as <-. vm_compute.
      discriminate.
Defined.

(** ** Date-only bounds *)

Module IsoTextFacts.
Import Iso IsoText.
Local Open Scope Z_scope.

Lemma digit_digit_char k : 0 <= k <= 9 -> digit (digit_char k) = Some k.
Proof.
  intros Hk.
  assert (E : k = 0 \/ k = 1 \/ k = 2 \/ k = 3 \/ k = 4 \/ k = 5 \/ k = 6 \/
              k = 7 \/ k = 8 \/ k = 9) by lia.
  repeat (destruct E as [-> | E]; [reflexivity|]). now subst k.
Qed.

Lemma digits_two n s :
  0 <= n <= 99 -> digits 2 0 (two_digits n +:+ s) = Some (n, s).
Proof.
  intros Hn. unfold two_digits.
  rewrite !PyStrFacts.app_cons, PyStrFacts.app_nil. cbn [digits].
  rewrite !digit_digit_char by (Z.to_euclidean_division_equations; lia).
  do 2 f_equal. Z.to_euclidean_division_equations; lia.
Qed.

Lemma digits_four n s :
  0 <= n <= 9999 -> digits 4 0 (four_digits n +:+ s) = Some (n, s).
Proof.
  intros Hn. unfold four_digits.
  rewrite !PyStrFacts.app_cons, PyStrFacts.app_nil. cbn [digits].
  rewrite !digit_digit_char by (Z.to_euclidean_division_equations; lia).
  do 2 f_equal. Z.to_euclidean_division_equations; lia.
Qed.

(** The concrete parser reads a date-only text as the midnight that starts
    the day. *)
Lemma parse_timestamp_date_text y m d :
  civil y m d -> parse_timestamp (date_text y m d) = Some (start_of_day y m d).
Proof.
  intros (Hy & Hm & Hd). unfold parse_timestamp, parse_date, date_text.
  rewrite digits_four by assumption. cbn [mbind option_bind].
  rewrite PyStrFacts.app_cons, PyStrFacts.app_nil. cbn [expect Ascii.eqb Bool.eqb].
  cbn [mbind option_bind].
  rewrite digits_two by lia. cbn [mbind option_bind].
  rewrite PyStrFacts.app_cons, PyStrFacts.app_nil. cbn [expect Ascii.eqb Bool.eqb].
  cbn [mbind option_bind].
  replace (two_digits d) with (two_digits d +:+ "") by reflexivity.
  rewrite digits_two by (unfold days_in_month in Hd;
                         repeat destruct (_ : bool) in Hd; lia).
  cbn [mbind option_bind].
  replace ((1 <=? m) && (m <=? 12) && (1 <=? d) && (d <=? days_in_month y m))
    with true by (symmetry; rewrite !andb_true_iff, !Z.leb_le; lia).
  reflexivity.
Qed.

End IsoTextFacts.

Section Bounds.

Context `{pd : Pandas}.

Lemma _parse_iso_nonempty (s : string) :
  s <> "" -> _parse_iso (Some s) = to_datetime s.
Proof. destruct s; [congruence | reflexivity]. Qed.

Lemma _parse_iso_unparseable (s : string) :
  to_datetime s = None -> _parse_iso (Some s) = None.
Proof. destruct s; [reflexivity | intros E; exact E]. Qed.

Lemma from_criterion_parsed start_date t ts :
  _parse_iso start_date = Some t -> from_criterion start_date ts <-> (t <= ts)%Z.
Proof.
  intros E. unfold from_criterion. rewrite E. split.
  - intros Hc. now apply Hc.
  - intros L t' [= <-]. exact L.
Qed.

Lemma until_criterion_parsed end_date t ts :
  _parse_iso end_date = Some t -> until_criterion end_date ts <-> (ts <= t)%Z.
Proof.
  intros E. unfold until_criterion. rewrite E. split.
  - intros Hc. now apply Hc.
  - intros L t' [= <-]. exact L.
Qed.

Lemma from_criterion_absent start_date ts :
  _parse_iso start_date = None -> from_criterion start_date ts.
Proof. intros E t. rewrite E. discriminate. Qed.

Lemma until_criterion_absent end_date ts :
  _parse_iso end_date = None -> until_criterion end_date ts.
Proof. intros E t. rewrite E. discriminate. Qed.

(** A start date that parses to [t] keeps, of the readings selected without
    it, those at [t] or later. *)
Lemma start_bound_rows (df : DataFrame) location sensor start_date end_date t r :
  _parse_iso start_date = Some t ->
  r ∈ filter_rows df location sensor start_date end_date
  <-> r ∈ filter_rows df location sensor None end_date /\ (t <= timestamp r)%Z.
Proof.
  intros E. rewrite !elem_of_filter_rows. unfold matches.
  rewrite (from_criterion_parsed _ _ _ E).
  pose proof (from_criterion_absent None (timestamp r) eq_refl). tauto.
Qed.

(** An end date that parses to [t] keeps, of the readings selected without
    it, those at [t] or earlier. *)
Lemma end_bound_rows (df : DataFrame) location sensor start_date end_date t r :
  _parse_iso end_date = Some t ->
  r ∈ filter_rows df location sensor start_date end_date
  <-> r ∈ filter_rows df location sensor start_date None /\ (timestamp r <= t)%Z.
Proof.
  intros E. rewrite !elem_of_filter_rows. unfold matches.
  rewrite (until_criterion_parsed _ _ _ E).
  pose proof (until_criterion_absent None (timestamp r) eq_refl). tauto.
Qed.

End Bounds.

(** C5, as stated, fails: the end date [2024-01-31] is the midnight that
    starts that day, so the reading at noon of 2024-01-31 is left out, while
    the end date [2024-01-31T23:59:59Z] takes it. *)
Lemma date_only_end_excludes_noon :
  to_datetime (Pandas := iso_pandas) "2024-01-31" = Some (Iso.start_of_day 2024 1 31) /\
  (exists r,
     load_data_body (pd := iso_pandas) noon_csv = inr [r] /\
     (Iso.start_of_day 2024 1 31 < timestamp r < Iso.start_of_day 2024 2 1)%Z) /\
  fst (stats (pd := iso_pandas) noon_csv init None None None (Some "2024-01-31"))
  = inr {| content := {| p_stats := {| st_count := 0; st_avg := None;
                                       st_min := None; st_max := None |} |};
           x_cache := MISS |} /\
  (exists s,
     fst (stats (pd := iso_pandas) noon_csv init
            None None None (Some "2024-01-31T23:59:59Z"))
     = inr {| content := {| p_stats := s |}; x_cache := MISS |} /\
     st_count s = 1).
Proof.
  split; [reflexivity|]. split.
  - eexists. split; [vm_compute; reflexivity|]. vm_compute. split; reflexivity.
  - split; [vm_compute; reflexivity|].
    eexists. split; [vm_compute; reflexivity|]. reflexivity.
Qed.

(** C5, amended: a date-only start date or end date is, for both bounds
    alike, the midnight that starts that UTC day: as a start date it keeps
    the readings at that midnight or later, as an end date the readings at
    that midnight or earlier, and so none that occur later on that day. *)
Theorem date_only_bound_is_midnight (df : DataFrame) (r : Reading)
    (y m d : Z) (location sensor other : option string) :
  IsoText.civil y m d ->
  let day := Some (IsoText.date_text y m d) in
  _parse_iso (pd := iso_pandas) day = Some (Iso.start_of_day y m d) /\
  (r ∈ filter_rows (pd := iso_pandas) df location sensor day other
   <-> r ∈ filter_rows (pd := iso_pandas) df location sensor None other /\
       (Iso.start_of_day y m d <= timestamp r)%Z) /\
  (r ∈ filter_rows (pd := iso_pandas) df location sensor other day
   <-> r ∈ filter_rows (pd := iso_pandas) df location sensor other None /\
       (timestamp r <= Iso.start_of_day y m d)%Z).
Proof.
  intros Hc day.
  assert (E : _parse_iso (pd := iso_pandas) day = Some (Iso.start_of_day y m d)).
  { unfold day. rewrite _parse_iso_nonempty.
    - now apply IsoTextFacts.parse_timestamp_date_text.
    - unfold IsoText.date_text, IsoText.four_digits.
      rewrite PyStrFacts.app_cons. discriminate. }
  split; [exact E|]. split.
  - now apply start_bound_rows.
  - now apply end_bound_rows.
Qed.

Lemma date_only_bound_is_midnight_witness :
  let df := with_value (pd := iso_pandas) (columns noon_csv)
              (with_timestamp (columns noon_csv) (records noon_csv)) in
  let r := {| timestamp := 1706702400000000000; location := "Building A";
              sensor := "temp"; value := Fin 10;
              location_norm := "building a"; sensor_norm := "temp" |} in
  _parse_iso (pd := iso_pandas) (Some "2024-01-31") = Some 1706659200000000000%Z /\
  (r ∈ filter_rows (pd := iso_pandas) df None None (Some "2024-01-31") None
   <-> r ∈ filter_rows (pd := iso_pandas) df None None None None /\
       (1706659200000000000 <= timestamp r)%Z) /\
  (r ∈ filter_rows (pd := iso_pandas) df None None None (Some "2024-01-31")
   <-> r ∈ filter_rows (pd := iso_pandas) df None None None None /\
       (timestamp r <= 1706659200000000000)%Z).
Proof.
  intros df r.
  apply (date_only_bound_is_midnight df r 2024 1 31 None None None).
  unfold IsoText.civil. vm_compute. intuition discriminate.
Defined.

(** ** Loading the table *)

Section Load.

Context `{pd : Pandas}.

Lemma load_rows_fused (cols : list string) (rows : list (list string)) :
  with_value cols (with_timestamp cols rows) = omap (reading_of cols rows) rows.
Proof.
  unfold with_value, with_timestamp, reading_of. cbn [read_rows dated_rows].
  set (ctx := rows) at 1 2 3 4 6 7 8 9.
  clearbody ctx.
  induction rows as [|row rows IH]; [reflexivity|]. cbn [omap list_omap].
  destruct (column_to_datetime _ (cell cols row "timestamp")) as [ts|];
    [|exact IH].
  cbn [omap list_omap].
  destruct (column_to_numeric _ (cell cols row "value")) as [v|]; [|exact IH].
  f_equal. exact IH.
Qed.

Lemma reading_of_invalid cols rows row :
  reading_of cols rows row = None <-> invalid_row cols rows row.
Proof.
  unfold reading_of, invalid_row.
  destruct (column_to_datetime _ _), (column_to_numeric _ _); split; intros Hx;
    try discriminate; try reflexivity; auto; now destruct Hx.
Qed.

Lemma reading_of_valid cols rows row r :
  reading_of cols rows row = Some r ->
  column_to_datetime (column cols rows "timestamp") (cell cols row "timestamp")
  = Some (timestamp r) /\
  column_to_numeric (column cols rows "value") (cell cols row "value")
  = Some (value r) /\
  location_norm r
  = PyStr.lower (PyStr.strip
      (column_astype_str (column cols rows "location") (cell cols row "location"))) /\
  sensor_norm r
  = PyStr.lower (PyStr.strip
      (column_astype_str (column cols rows "sensor") (cell cols row "sensor"))).
Proof.
  unfold reading_of.
  destruct (column_to_datetime _ _), (column_to_numeric _ _); intros [= <-]; auto.
Qed.



Lemma load_data_body_columns (src : Frame) (df : DataFrame) :
  load_data_body src = inr df ->
  df = omap (reading_of (columns src) (records src)) (records src) /\
  forall c, c ∈ required -> c ∈ columns src.
Proof.
  unfold load_data_body.
  destruct (filter (fun c => c ∉ columns src) required) as [|c0 miss] eqn:E;
    [|discriminate].
  intros [= <-]. split; [apply load_rows_fused|].
  intros c Hc. destruct (decide (c ∈ columns src)) as [|Hn]; [assumption|].
  assert (Hin : c ∈ filter (fun c => c ∉ columns src) required)
    by now apply list_elem_of_filter.
  rewrite E in Hin. now apply elem_of_nil in Hin.
Qed.

(** With a required column missing the body of [load_data] raises. *)
Lemma load_data_body_missing (src : Frame) :
  (exists c, c ∈ required /\ c ∉ columns src) ->
  exists missing,
    missing <> [] /\
    (forall c, c ∈ missing <-> c ∈ required /\ c ∉ columns src) /\
    load_data_body src = inl (ValueError missing).
Proof.
  intros (c & Hc & Hn). unfold load_data_body.
  assert (Hin : c ∈ filter (fun c => c ∉ columns src) required)
    by now apply list_elem_of_filter.
  exists (filter (fun c => c ∉ columns src) required).
  destruct (filter (fun c => c ∉ columns src) required) as [|c0 miss] eqn:E.
  - now apply elem_of_nil in Hin.
  - split; [discriminate|]. split; [|reflexivity].
    intros c'. rewrite <- E, list_elem_of_filter. tauto.
Qed.

(** While the table does not load, a request whose key is not stored
    raises and leaves the state as it is. *)
Lemma stats_raises (src : Frame) (st : State) (e : Exn)
    (location sensor start_date end_date : option string) :
  load_data_body src = inl e ->
  loaded st = None ->
  cache st !! _cache_key location sensor start_date end_date = None ->
  stats src st location sensor start_date end_date = (inl e, st).
Proof.
  intros He Hl Hk. unfold stats, load_data. now rewrite Hk, Hl, He.
Qed.

Lemma serve_raises (src : Frame) (e : Exn) (qs : list Request) :
  load_data_body src = inl e ->
  serve src init qs = (map (fun _ => inl e) qs, init).
Proof.
  intros He. induction qs as [|q qs IH]; [reflexivity|].
  cbn [serve]. unfold stats_req.
  rewrite (stats_raises src init e) by (assumption || reflexivity).
  now rewrite IH.
Qed.

End Load.

(** C6: when a required column is missing from the file, [load_data] raises
    the error naming the missing columns; [stats] lets it through to its
    caller whenever it has to load the table, storing nothing; so every
    request of a process served from that file fails with this error. *)
Theorem missing_column_is_fatal `{pd : Pandas} (src : Frame) :
  (exists c, c ∈ required /\ c ∉ columns src) ->
  exists missing,
    missing <> [] /\
    (forall c, c ∈ missing <-> c ∈ required /\ c ∉ columns src) /\
    load_data_body src = inl (ValueError missing) /\
    (forall st, loaded st = None ->
       load_data src st = (inl (ValueError missing), st)) /\
    (forall st location sensor start_date end_date,
       loaded st = None ->
       cache st !! _cache_key location sensor start_date end_date = None ->
       stats src st location sensor start_date end_date
       = (inl (ValueError missing), st)) /\
    (forall qs, serve src init qs
                = (map (fun _ => inl (ValueError missing)) qs, init)).
Proof.
  intros Hmiss.
  destruct (load_data_body_missing src Hmiss) as (missing & Hne & Hall & He).
  exists missing. do 3 (split; [assumption|]). split; [|split].
  - intros st Hl. unfold load_data. now rewrite Hl, He.
  - intros st location sensor start_date end_date Hl Hk.
    now apply stats_raises.
  - intros qs. now apply serve_raises.
Qed.

Lemma missing_column_is_fatal_witness :
  exists missing,
    missing <> [] /\
    (forall c, c ∈ missing <-> c ∈ required /\ c ∉ columns no_value_csv) /\
    load_data_body (pd := iso_pandas) no_value_csv = inl (ValueError missing) /\
    (forall st, loaded st = None ->
       load_data (pd := iso_pandas) no_value_csv st
       = (inl (ValueError missing), st)) /\
    (forall st location sensor start_date end_date,
       loaded st = None ->
       cache st !! _cache_key location sensor start_date end_date = None ->
       stats (pd := iso_pandas) no_value_csv st location sensor start_date end_date
       = (inl (ValueError missing), st)) /\
    (forall qs, serve (pd := iso_pandas) no_value_csv init qs
                = (map (fun _ => inl (ValueError missing)) qs, init)).
Proof.
  apply (missing_column_is_fatal (pd := iso_pandas) no_value_csv).
  exists "value". split.
  - unfold required. do 3 right. left.
  - intros Hin. simpl in Hin.
    repeat (apply elem_of_cons in Hin as [Hin|Hin]; [discriminate|]).
    now apply elem_of_nil in Hin.
Defined.



(** ** Dates that do not parse *)

(** C8: a start date or end date that does not parse is no constraint: the
    readings selected, and so the stats, are those of the request without
    that parameter; the request is served like any other: on a miss, on a
    table that loads, its response is built from those stats, and it is the
    MISS response carrying them whenever they are numbers that JSON can
    write. *)
Theorem unparseable_date_is_no_constraint `{pd : Pandas} (df : DataFrame)
    (s : string) (location sensor other : option string) :
  to_datetime s = None ->
  (filter_rows df location sensor (Some s) other
   = filter_rows df location sensor None other /\
   filter_rows df location sensor other (Some s)
   = filter_rows df location sensor other None) /\
  forall (src : Frame) (st : State),
    fst (load_data src st) = inr df ->
    (cache st !! _cache_key location sensor (Some s) other = None ->
     fst (stats src st location sensor (Some s) other)
     = JSONResponse {| p_stats := compute df location sensor None other |} MISS /\
     (json_compliant {| p_stats := compute df location sensor None other |} = true ->
      fst (stats src st location sensor (Some s) other)
      = inr {| content := {| p_stats := compute df location sensor None other |};
               x_cache := MISS |})) /\
    (cache st !! _cache_key location sensor other (Some s) = None ->
     fst (stats src st location sensor other (Some s))
     = JSONResponse {| p_stats := compute df location sensor other None |} MISS /\
     (json_compliant {| p_stats := compute df location sensor other None |} = true ->
      fst (stats src st location sensor other (Some s))
      = inr {| content := {| p_stats := compute df location sensor other None |};
               x_cache := MISS |})).
Proof.
  intros Hs. apply _parse_iso_unparseable in Hs.
  assert (Hstart : forall o, filter_rows df location sensor (Some s) o
                             = filter_rows df location sensor None o).
  { intros o. unfold filter_rows. now rewrite Hs. }
  assert (Hend : forall o, filter_rows df location sensor o (Some s)
                           = filter_rows df location sensor o None).
  { intros o. unfold filter_rows. now rewrite Hs. }
  split; [split; [apply Hstart | apply Hend]|].
  intros src st Hload.
  destruct (load_data src st) as [res st0] eqn:Hl. simpl in Hload. subst res.
  split.
  - intros Hk.
    assert (E : fst (stats src st location sensor (Some s) other)
                = JSONResponse
                    {| p_stats := compute df location sensor None other |} MISS).
    { rewrite (stats_miss _ _ _ _ _ _ _ _ Hk Hl). cbn [fst].
      unfold compute. now rewrite Hstart. }
    split; [exact E|]. intros Hj. rewrite E. now apply JSONResponse_ok.
  - intros Hk.
    assert (E : fst (stats src st location sensor other (Some s))
                = JSONResponse
                    {| p_stats := compute df location sensor other None |} MISS).
    { rewrite (stats_miss _ _ _ _ _ _ _ _ Hk Hl). cbn [fst].
      unfold compute. now rewrite Hend. }
    split; [exact E|]. intros Hj. rewrite E. now apply JSONResponse_ok.
Qed.

Lemma unparseable_date_is_no_constraint_witness :
  let df := with_value (pd := iso_pandas) (columns temp_csv)
              (with_timestamp (columns temp_csv) (records temp_csv)) in
  (filter_rows df (Some "Building A") None (Some "soon") None
   = filter_rows df (Some "Building A") None None None /\
   filter_rows df (Some "Building A") None None (Some "soon")
   = filter_rows df (Some "Building A") None None None) /\
  forall (src : Frame) (st : State),
    fst (load_data src st) = inr df ->
    (cache st !! _cache_key (Some "Building A") None (Some "soon") None = None ->
     fst (stats src st (Some "Building A") None (Some "soon") None)
     = JSONResponse
         {| p_stats := compute df (Some "Building A") None None None |} MISS /\
     (json_compliant
        {| p_stats := compute df (Some "Building A") None None None |} = true ->
      fst (stats src st (Some "Building A") None (Some "soon") None)
      = inr {| content :=
                 {| p_stats := compute df (Some "Building A") None None None |};
               x_cache := MISS |})) /\
    (cache st !! _cache_key (Some "Building A") None None (Some "soon") = None ->
     fst (stats src st (Some "Building A") None None (Some "soon"))
     = JSONResponse
         {| p_stats := compute df (Some "Building A") None None None |} MISS /\
     (json_compliant
        {| p_stats := compute df (Some "Building A") None None None |} = true ->
      fst (stats src st (Some "Building A") None None (Some "soon"))
      = inr {| content :=
                 {| p_stats := compute df (Some "Building A") None None None |};
               x_cache := MISS |})).
Proof.
  intros df.
  apply (unparseable_date_is_no_constraint (pd := iso_pandas) df "soon").
  reflexivity.
Defined.

(** ** Parameters made of whitespace only *)

(** C9 fails on the code for the location [""] against a location of
    blanks: both have the key of the empty text, yet the first selects every
    reading (3 in [temp_csv]) and the second none; served one after the other
    by one process, the second is answered from the cache with the stats of
    the first. *)
Lemma blank_location_differs_from_empty :
  PyStr.lower (PyStr.strip "") = PyStr.lower (PyStr.strip "  ") /\
  _cache_key (Some "") None None None = _cache_key (Some "  ") None None None /\
  st_count (compute (pd := iso_pandas)
              (with_value (columns temp_csv)
                 (with_timestamp (columns temp_csv) (records temp_csv)))
              (Some "") None None None) = 3 /\
  fst (stats (pd := iso_pandas) temp_csv init (Some "  ") None None None)
  = inr {| content := {| p_stats := {| st_count := 0; st_avg := None;
                                       st_min := None; st_max := None |} |};
           x_cache := MISS |} /\
  (exists s,
     fst (serve (pd := iso_pandas) temp_csv init
            [by_location (Some ""); by_location (Some "  ")])
     = [inr {| content := {| p_stats := s |}; x_cache := MISS |};
        inr {| content := {| p_stats := s |}; x_cache := HIT |}] /\
     st_count s = 3).
Proof.
  do 3 (split; [reflexivity|]). split; [vm_compute; reflexivity|].
  eexists. split; [vm_compute; reflexivity|]. reflexivity.
Qed.

(** C10, as stated, fails: the key of an empty parameter is not the marker of
    a missing one, it is the empty text, the same as the key of a parameter
    of blanks. *)
Lemma empty_parameter_key_is_not_absent :
  _cache_key (Some "") None None None <> _cache_key None None None None /\
  _cache_key None (Some "") None None <> _cache_key None None None None /\
  _cache_key (Some " ") None None None = _cache_key (Some "") None None None /\
  _cache_key None (Some " ") None None = _cache_key None (Some "") None None.
Proof. repeat split; discriminate. Qed.

Section Blank.

Context `{pd : Pandas}.

Lemma norm_blank (ws : string) :
  PyStr.all_space ws = true -> norm (Some ws) = Some "".
Proof.
  intros Hws. unfold norm, PyStr.strip.
  now rewrite (PyStrFacts.lstrip_spaces ws Hws).
Qed.

Lemma text_criterion_blank (ws col : string) :
  ws <> "" -> PyStr.all_space ws = true ->
  text_criterion (Some ws) col <-> col = "".
Proof.
  intros Hne Hws. pose proof (norm_blank ws Hws) as [= E].
  unfold text_criterion. split.
  - intros Hc. rewrite <- E. now apply Hc.
  - intros -> s [= <-] _. now rewrite E.
Qed.

Lemma text_criterion_missing (col : string) : text_criterion None col.
Proof. intros s. discriminate. Qed.

(** Two parameters that are not empty and have the same trimmed,
    case-folded text select the same rows. *)
Lemma where_eq_same_norm (col : Reading -> string) (s1 s2 : string)
    (flt : DataFrame) :
  s1 <> "" -> s2 <> "" -> norm (Some s1) = norm (Some s2) ->
  where_eq col (Some s1) flt = where_eq col (Some s2) flt.
Proof.
  intros H1 H2 [= E].
  destruct s1 as [|c1 s1]; [congruence|]. destruct s2 as [|c2 s2]; [congruence|].
  unfold where_eq. now rewrite E.
Qed.

(** X20: for such a pair of locations, or of sensors, the endpoint gives
    the same answer and the same next state, in every state and for every
    file. *)
Lemma stats_same_norm (src : Frame) (st : State) (s1 s2 : string)
    (other start_date end_date : option string) :
  s1 <> "" -> s2 <> "" -> norm (Some s1) = norm (Some s2) ->
  stats src st (Some s1) other start_date end_date
  = stats src st (Some s2) other start_date end_date /\
  stats src st other (Some s1) start_date end_date
  = stats src st other (Some s2) start_date end_date.
Proof.
  intros H1 H2 E. unfold stats, _cache_key. rewrite E.
  split.
  - destruct (cache st !! _) as [p|]; [reflexivity|].
    destruct (load_data src st) as [[e|df] st1]; [reflexivity|].
    unfold compute, filter_rows.
    now rewrite (where_eq_same_norm _ s1 s2 _ H1 H2 E).
  - destruct (cache st !! _) as [p|]; [reflexivity|].
    destruct (load_data src st) as [[e|df] st1]; [reflexivity|].
    unfold compute, filter_rows.
    now rewrite (where_eq_same_norm _ s1 s2 _ H1 H2 E).
Qed.

End Blank.

(** C10, amended: a location (or sensor) parameter that is not empty and
    holds only whitespace is a constraint: of the readings the request would
    select without it, it keeps those whose normalized location (or sensor)
    is the empty text; and its component of the cache key is the empty text,
    so that the key differs from the key of the request without the
    parameter. *)
Theorem blank_parameter_is_a_constraint `{pd : Pandas} (ws : string)
    (df : DataFrame) (other start_date end_date : option string) :
  ws <> "" -> PyStr.all_space ws = true ->
  (filter_rows df (Some ws) other start_date end_date
   = filter (fun r => location_norm r = "")
       (filter_rows df None other start_date end_date) /\
   _cache_key (Some ws) other start_date end_date
   = (Some "", norm other, norm start_date, norm end_date) /\
   _cache_key (Some ws) other start_date end_date
   <> _cache_key None other start_date end_date) /\
  (filter_rows df other (Some ws) start_date end_date
   = filter (fun r => sensor_norm r = "")
       (filter_rows df other None start_date end_date) /\
   _cache_key other (Some ws) start_date end_date
   = (norm other, Some "", norm start_date, norm end_date) /\
   _cache_key other (Some ws) start_date end_date
   <> _cache_key other None start_date end_date).
Proof.
  intros Hne Hws. pose proof (norm_blank ws Hws) as Hn.
  split; (split; [|split]).
  - rewrite !filter_rows_matches, list_filter_filter.
    apply list_filter_iff. intros r. unfold matches.
    rewrite (text_criterion_blank ws _ Hne Hws).
    pose proof (text_criterion_missing (location_norm r)). tauto.
  - unfold _cache_key. now rewrite Hn.
  - unfold _cache_key. rewrite Hn. discriminate.
  - rewrite !filter_rows_matches, list_filter_filter.
    apply list_filter_iff. intros r. unfold matches.
    rewrite (text_criterion_blank ws _ Hne Hws).
    pose proof (text_criterion_missing (sensor_norm r)). tauto.
  - unfold _cache_key. now rewrite Hn.
  - unfold _cache_key. rewrite Hn. discriminate.
Qed.

Lemma blank_parameter_is_a_constraint_witness :
  let df := with_value (pd := iso_pandas) (columns temp_csv)
              (with_timestamp (columns temp_csv) (records temp_csv)) in
  (filter_rows df (Some "  ") (Some "temp") None None
   = filter (fun r => location_norm r = "")
       (filter_rows df None (Some "temp") None None) /\
   _cache_key (Some "  ") (Some "temp") None None
   = (Some "", norm (Some "temp"), norm None, norm None) /\
   _cache_key (Some "  ") (Some "temp") None None
   <> _cache_key None (Some "temp") None None) /\
  (filter_rows df (Some "temp") (Some "  ") None None
   = filter (fun r => sensor_norm r = "")
       (filter_rows df (Some "temp") None None None) /\
   _cache_key (Some "temp") (Some "  ") None None
   = (norm (Some "temp"), Some "", norm None, norm None) /\
   _cache_key (Some "temp") (Some "  ") None None
   <> _cache_key (Some "temp") None None None).
Proof.
  intros df.
  apply (blank_parameter_is_a_constraint (pd := iso_pandas) "  " df);
    [discriminate | reflexivity].
Defined.


(** * Further properties of the code *)

(** ** The normal form of a key component *)

Module NormalForm.
Import PyStr PyStrFacts.

Lemma strip_idem s : strip (strip s) = strip s.
Proof.
  destruct (strip_split s) as (pre & post & Hpre & Hpost & E).
  rewrite E at 2. now rewrite strip_surrounded.
Qed.

Lemma lstrip_head s c t : lstrip s = String c t -> is_space c = false.
Proof.
  induction s as [|a s IH]; simpl; [discriminate|].
  destruct (is_space a) eqn:Ha; [exact IH|]. now intros [= <- _].
Qed.

Lemma rstrip_head s c t :
  rstrip s = String c t -> exists t', s = String c t'.
Proof.
  destruct s as [|a s]; simpl; [discriminate|].
  destruct (rstrip s); [destruct (is_space a)|]; intros [= <- _]; eauto.
Qed.

Lemma rstrip_last s t c :
  rstrip s = t +:+ String c "" -> is_space c = false.
Proof.
  revert t. induction s as [|a s IH]; intros t; simpl.
  - destruct t; discriminate.
  - destruct (rstrip s) as [|b u] eqn:Hr.
    + destruct (is_space a) eqn:Ha.
      * destruct t; discriminate.
      * destruct t as [|x [|y t]]; rewrite ?app_cons, ?app_nil;
          intros [= ]; congruence.
    + destruct t as [|x t]; rewrite ?app_cons, ?app_nil.
      * intros E. now inversion E.
      * intros [= _ E]. now apply (IH t).
Qed.

Lemma lower_no_upper s c : c ∈ chars (lower s) -> is_upper c = false.
Proof.
  induction s as [|a s IH]; simpl.
  - intros Hin. now apply elem_of_nil in Hin.
  - intros [-> | Hin]%elem_of_cons; [|auto].
    destruct a as [[] [] [] [] [] [] [] []]; reflexivity.
Qed.

Lemma lower_head s c t :
  lower s = String c t -> exists a u, s = String a u /\ c = lower_char a.
Proof. destruct s as [|a u]; simpl; [discriminate|]. intros [= <- _]. eauto. Qed.

Lemma lower_last s t c :
  lower s = t +:+ String c "" ->
  exists u a, s = u +:+ String a "" /\ c = lower_char a.
Proof.
  revert t. induction s as [|a s IH]; intros t; simpl.
  - destruct t; discriminate.
  - destruct t as [|x t]; rewrite ?app_cons, ?app_nil.
    + intros [= <- E]. destruct s; [|discriminate]. now exists "", a.
    + intros [= <- E]. destruct (IH t E) as (u & b & -> & ->).
      now exists (String a u), b.
Qed.

End NormalForm.

(** X1: a key is built from the normal forms alone: normalizing parameters
    that are already normal changes nothing, so the key of the normalized
    request is the key of the request. *)
Theorem cache_key_idempotent (location sensor start_date end_date : option string) :
  norm (norm location) = norm location /\
  _cache_key (norm location) (norm sensor) (norm start_date) (norm end_date)
  = _cache_key location sensor start_date end_date.
Proof.
  assert (Hn : forall o, norm (norm o) = norm o).
  { intros [s|]; [|reflexivity]. simpl. f_equal.
    now rewrite <- PyStrFacts.strip_lower, PyStrFacts.lower_idem,
      PyStrFacts.strip_lower, NormalForm.strip_idem. }
  split; [apply Hn|]. unfold _cache_key. now rewrite !Hn.
Qed.

(** X2: a text component of a key holds no ASCII capital letter, and
    neither starts nor ends with a whitespace character. *)
Theorem cache_key_component_canonical (param : option string) (v : string) :
  norm param = Some v ->
  (forall c, c ∈ chars v -> is_upper c = false) /\
  (forall c t, v = String c t -> PyStr.is_space c = false) /\
  (forall t c, v = t +:+ String c "" -> PyStr.is_space c = false).
Proof.
  destruct param as [s|]; [|discriminate]. intros [= <-].
  split; [|split].
  - apply NormalForm.lower_no_upper.
  - intros c t E. apply NormalForm.lower_head in E as (a & u & E & ->).
    rewrite PyStrFacts.is_space_lower_char. unfold PyStr.strip in E.
    destruct (NormalForm.rstrip_head _ _ _ E) as [t' E'].
    now apply NormalForm.lstrip_head in E'.
  - intros t c E. apply NormalForm.lower_last in E as (u & a & E & ->).
    rewrite PyStrFacts.is_space_lower_char.
    now apply NormalForm.rstrip_last in E.
Qed.

Lemma cache_key_component_canonical_witness :
  (forall c, c ∈ chars "building a" -> is_upper c = false) /\
  (forall c t, "building a" = String c t -> PyStr.is_space c = false) /\
  (forall t c, "building a" = t +:+ String c "" -> PyStr.is_space c = false).
Proof.
  apply (cache_key_component_canonical (Some "  Building A ")). reflexivity.
Defined.

(** ** What a request does to the state *)

Section Steps.

Context `{pd : Pandas}.

Lemma load_data_loaded (src : Frame) (st : State) (df : DataFrame) :
  loaded st = Some df -> load_data src st = (inr df, st).
Proof. intros Hl. unfold load_data. now rewrite Hl. Qed.

Lemma load_data_ok (src : Frame) (st st1 : State) (df : DataFrame) :
  load_data src st = (inr df, st1) ->
  loaded st1 = Some df /\ cache st1 = cache st /\
  (forall df0, loaded st = Some df0 -> df0 = df).
Proof.
  unfold load_data. destruct (loaded st) as [df0|] eqn:Hl.
  - intros [= <- <-]. repeat split; [assumption|]. now intros ? [= <-].
  - destruct (load_data_body src); intros [= <- <-]. repeat split. discriminate.
Qed.

Lemma load_data_error (src : Frame) (st st1 : State) (e : Exn) :
  load_data src st = (inl e, st1) ->
  st1 = st /\ loaded st = None /\ exists missing, e = ValueError missing.
Proof.
  unfold load_data. destruct (loaded st) as [df0|]; [discriminate|].
  unfold load_data_body.
  destruct (filter _ required) as [|c missing]; intros [= <- <-]; eauto.
Qed.

(** The three ways a request ends. *)
Lemma stats_cases (src : Frame) (st : State)
    (location sensor start_date end_date : option string) :
  let key := _cache_key location sensor start_date end_date in
  let res := stats src st location sensor start_date end_date in
  (exists payload,
     cache st !! key = Some payload /\
     res = (JSONResponse payload HIT, st)) \/
  (exists missing,
     cache st !! key = None /\ loaded st = None /\
     res = (inl (ValueError missing), st)) \/
  (exists df st1,
     cache st !! key = None /\ load_data src st = (inr df, st1) /\
     res = (JSONResponse
              {| p_stats := compute df location sensor start_date end_date |} MISS,
            {| loaded := Some df;
               cache := <[key := {| p_stats :=
                                      compute df location sensor start_date end_date |}]>
                        (cache st) |})).
Proof.
  intros key res. subst res. unfold stats. fold key.
  destruct (cache st !! key) as [payload|] eqn:Hk.
  - left. eauto.
  - right. destruct (load_data src st) as [[e|df] st1] eqn:Hl.
    + left. apply load_data_error in Hl as (-> & Hl & missing & ->). eauto.
    + right. destruct (load_data_ok _ _ _ _ Hl) as (H1 & H2 & _).
      exists df, st1. rewrite H1, H2. auto.
Qed.

(** The entries of the cache of a reachable state are stats computed from
    the loaded table, for a request with the key of the entry. *)
Lemma reachable_cache (st : State) :
  reachable st ->
  forall k payload, cache st !! k = Some payload ->
    exists df location sensor start_date end_date,
      loaded st = Some df /\
      _cache_key location sensor start_date end_date = k /\
      payload = {| p_stats := compute df location sensor start_date end_date |}.
Proof.
  induction 1 as [|src st l s a b Hr IH]; intros k payload Hk.
  - unfold init in Hk. cbn [cache] in Hk. rewrite lookup_empty in Hk. discriminate.
  - destruct (stats_cases src st l s a b)
      as [(p & _ & E) | [(e & _ & _ & E) | (df & st1 & Hm & Hl & E)]];
      rewrite E in Hk |- *; cbn [snd] in *; try now apply IH.
    cbn [loaded cache] in *.
    destruct (decide (_cache_key l s a b = k)) as [<- | Hne].
    + rewrite lookup_insert_eq in Hk. injection Hk as <-.
      exists df, l, s, a, b. auto.
    + rewrite lookup_insert_ne in Hk by assumption.
      destruct (IH _ _ Hk) as (df0 & l0 & s0 & a0 & b0 & H0 & Hk0 & ->).
      apply load_data_ok in Hl as (_ & _ & Hsame).
      rewrite (Hsame _ H0). exists df, l0, s0, a0, b0. auto.
Qed.

Lemma aggregate_count (flt : DataFrame) : st_count (aggregate flt) = length flt.
Proof. destruct flt; [reflexivity|]. simpl. now rewrite length_map. Qed.

Lemma aggregate_shape (flt : DataFrame) :
  (st_count (aggregate flt) = 0 /\ aggregate flt = no_stats) \/
  (st_count (aggregate flt) <> 0 /\ is_Some (st_avg (aggregate flt)) /\
   is_Some (st_min (aggregate flt)) /\ is_Some (st_max (aggregate flt))).
Proof.
  destruct flt as [|r flt]; [left; split; reflexivity|].
  right. simpl. repeat split; eauto; discriminate.
Qed.

End Steps.

(** X3: a request never removes or changes an entry of the cache, and
    touches no key but its own: what was stored stays stored with the same
    payload, and every other key is as it was. *)
Theorem cache_only_grows `{pd : Pandas} (src : Frame) (st : State)
    (location sensor start_date end_date : option string) :
  let st' := snd (stats src st location sensor start_date end_date) in
  (forall k payload, cache st !! k = Some payload -> cache st' !! k = Some payload) /\
  (forall k, k <> _cache_key location sensor start_date end_date ->
     cache st' !! k = cache st !! k).
Proof.
  intros st'. subst st'.
  destruct (stats_cases src st location sensor start_date end_date)
    as [(p & _ & E) | [(e & _ & _ & E) | (df & st1 & Hm & _ & E)]];
    rewrite E; cbn [snd cache]; try (split; auto; fail).
  split.
  - intros k payload Hk. rewrite lookup_insert_ne; [assumption|]. congruence.
  - intros k Hne. now rewrite lookup_insert_ne.
Qed.

(** X4: once the table is loaded it is kept: whatever the file holds later
    (it may have lost a column), a request does not raise for a missing
    column and the table stays the same; a stored key is answered from the
    cache, and a miss is computed from that table: in both cases the outcome
    is that of writing the payload as JSON. *)
Theorem loaded_table_is_kept `{pd : Pandas} (src : Frame) (st : State)
    (df : DataFrame) (location sensor start_date end_date : option string) :
  loaded st = Some df ->
  loaded (snd (stats src st location sensor start_date end_date)) = Some df /\
  (forall missing,
     fst (stats src st location sensor start_date end_date)
     <> inl (ValueError missing)) /\
  (forall payload,
     cache st !! _cache_key location sensor start_date end_date = Some payload ->
     fst (stats src st location sensor start_date end_date)
     = JSONResponse payload HIT) /\
  (cache st !! _cache_key location sensor start_date end_date = None ->
   fst (stats src st location sensor start_date end_date)
   = JSONResponse
       {| p_stats := compute df location sensor start_date end_date |} MISS).
Proof.
  intros Hl.
  assert (Hj : forall payload x missing,
             JSONResponse payload x <> inl (ValueError missing)).
  { intros payload x missing. unfold JSONResponse.
    destruct (json_compliant payload); discriminate. }
  destruct (stats_cases src st location sensor start_date end_date)
    as [(p & Hk & E) | [(e & _ & Hn & E) | (df1 & st1 & Hm & Hl1 & E)]];
    rewrite E; cbn [fst snd loaded].
  - split; [assumption|]. split; [intros missing; apply Hj|].
    split; [|congruence]. intros payload Hp. congruence.
  - congruence.
  - rewrite (load_data_loaded src st df Hl) in Hl1. injection Hl1 as <- <-.
    split; [reflexivity|]. split; [intros missing; apply Hj|].
    split; [|reflexivity]. intros payload Hp. congruence.
Qed.

Lemma loaded_table_is_kept_witness :
  let df := with_value (pd := iso_pandas) (columns temp_csv)
              (with_timestamp (columns temp_csv) (records temp_csv)) in
  let st := {| loaded := Some df; cache := ∅ |} in
  loaded (snd (stats (pd := iso_pandas) no_value_csv st None (Some "temp") None None))
  = Some df /\
  (forall missing,
     fst (stats (pd := iso_pandas) no_value_csv st None (Some "temp") None None)
     <> inl (ValueError missing)) /\
  (forall payload,
     cache st !! _cache_key None (Some "temp") None None = Some payload ->
     fst (stats (pd := iso_pandas) no_value_csv st None (Some "temp") None None)
     = JSONResponse payload HIT) /\
  (cache st !! _cache_key None (Some "temp") None None = None ->
   fst (stats (pd := iso_pandas) no_value_csv st None (Some "temp") None None)
   = JSONResponse {| p_stats := compute df None (Some "temp") None None |} MISS).
Proof.
  intros df st.
  apply (loaded_table_is_kept (pd := iso_pandas) no_value_csv st df).
  reflexivity.
Defined.

(** X5: a load that raised is not remembered: the request leaves the state
    as it was, and the same request, served once the file has its columns,
    loads the table, is computed as a miss from it and stored; its outcome is
    that of writing the computed payload as JSON. *)
Theorem failed_load_is_retried `{pd : Pandas} (bad good : Frame) (st : State)
    (e : Exn) (df : DataFrame) (location sensor start_date end_date : option string) :
  loaded st = None ->
  cache st !! _cache_key location sensor start_date end_date = None ->
  load_data_body bad = inl e ->
  load_data_body good = inr df ->
  stats bad st location sensor start_date end_date = (inl e, st) /\
  stats good (snd (stats bad st location sensor start_date end_date))
    location sensor start_date end_date
  = (JSONResponse
       {| p_stats := compute df location sensor start_date end_date |} MISS,
     {| loaded := Some df;
        cache := <[_cache_key location sensor start_date end_date :=
                     {| p_stats := compute df location sensor start_date end_date |}]>
                 (cache st) |}).
Proof.
  intros Hl Hk Hbad Hgood.
  assert (E : stats bad st location sensor start_date end_date = (inl e, st))
    by now apply stats_raises.
  split; [exact E|]. rewrite E. cbn [snd].
  unfold stats, load_data. now rewrite Hk, Hl, Hgood.
Qed.

Lemma failed_load_is_retried_witness :
  let df := with_value (pd := iso_pandas) (columns temp_csv)
              (with_timestamp (columns temp_csv) (records temp_csv)) in
  stats (pd := iso_pandas) no_value_csv init None (Some "temp") None None
  = (inl (ValueError ["value"]), init) /\
  stats (pd := iso_pandas) temp_csv
    (snd (stats (pd := iso_pandas) no_value_csv init None (Some "temp") None None))
    None (Some "temp") None None
  = (JSONResponse {| p_stats := compute df None (Some "temp") None None |} MISS,
     {| loaded := Some df;
        cache := <[_cache_key None (Some "temp") None None :=
                     {| p_stats := compute df None (Some "temp") None None |}]>
                 (cache init) |}).
Proof.
  intros df.
  apply (failed_load_is_retried (pd := iso_pandas) no_value_csv temp_csv init);
    reflexivity.
Defined.

(** X21: stats that JSON cannot write are stored all the same: the request
    that computes them raises where the response is built, after the store;
    from then on every request with that key finds them and raises again,
    whatever the file holds, and leaves the state as it is. *)
Theorem unwritable_stats_stay_cached `{pd : Pandas} (src : Frame) (st : State)
    (df : DataFrame) (location sensor start_date end_date : option string) :
  cache st !! _cache_key location sensor start_date end_date = None ->
  fst (load_data src st) = inr df ->
  json_compliant {| p_stats := compute df location sensor start_date end_date |}
  = false ->
  let st1 := snd (stats src st location sensor start_date end_date) in
  fst (stats src st location sensor start_date end_date) = inl OutOfRangeFloat /\
  cache st1 !! _cache_key location sensor start_date end_date
  = Some {| p_stats := compute df location sensor start_date end_date |} /\
  forall (src' : Frame) (l s a b : option string),
    _cache_key l s a b = _cache_key location sensor start_date end_date ->
    stats src' st1 l s a b = (inl OutOfRangeFloat, st1).
Proof.
  intros Hk Hload Hjson st1. subst st1.
  destruct (load_data src st) as [res st0] eqn:Hl. cbn [fst] in Hload. subst res.
  rewrite (stats_miss _ _ _ _ _ _ _ _ Hk Hl). cbn [fst snd].
  split; [now apply JSONResponse_raises|].
  set (payload := {| p_stats := compute df location sensor start_date end_date |})
    in *.
  set (st1 := {| loaded := loaded st0;
                 cache := <[_cache_key location sensor start_date end_date := payload]>
                          (cache st0) |}).
  assert (Hs : cache st1 !! _cache_key location sensor start_date end_date
               = Some payload)
    by (subst st1; cbn [cache]; apply lookup_insert_eq).
  split; [exact Hs|].
  intros src' l s a b Hkey.
  rewrite (stats_hit src' st1 payload l s a b) by (now rewrite Hkey).
  f_equal. now apply JSONResponse_raises.
Qed.

Lemma unwritable_stats_stay_cached_witness :
  let df := with_value (pd := iso_pandas) (columns huge_csv)
              (with_timestamp (columns huge_csv) (records huge_csv)) in
  let st1 := snd (stats (pd := iso_pandas) huge_csv init None None None None) in
  fst (stats (pd := iso_pandas) huge_csv init None None None None)
  = inl OutOfRangeFloat /\
  cache st1 !! _cache_key None None None None
  = Some {| p_stats := compute df None None None None |} /\
  forall (src' : Frame) (l s a b : option string),
    _cache_key l s a b = _cache_key None None None None ->
    stats src' st1 l s a b = (inl OutOfRangeFloat, st1).
Proof.
  intros df.
  apply (unwritable_stats_stay_cached (pd := iso_pandas) huge_csv init df);
    [reflexivity | reflexivity | vm_compute; reflexivity].
Defined.

(** ** Answers of a running process *)

(** X6: in a process started from the empty state, every answer carries
    stats computed from the loaded table: those of the request itself on a
    MISS, and on a HIT those of a request with the same key. *)
Theorem answers_come_from_the_table `{pd : Pandas} (src : Frame) (st : State)
    (location sensor start_date end_date : option string) (resp : Response) :
  reachable st ->
  fst (stats src st location sensor start_date end_date) = inr resp ->
  exists df l s a b,
    loaded (snd (stats src st location sensor start_date end_date)) = Some df /\
    _cache_key l s a b = _cache_key location sensor start_date end_date /\
    content resp = {| p_stats := compute df l s a b |} /\
    (x_cache resp = MISS ->
     content resp = {| p_stats := compute df location sensor start_date end_date |}).
Proof.
  intros Hr Hresp.
  destruct (stats_cases src st location sensor start_date end_date)
    as [(p & Hk & E) | [(e & _ & _ & E) | (df & st1 & Hm & _ & E)]];
    rewrite E in Hresp |- *; cbn [fst snd] in *; [| discriminate |];
    apply JSONResponse_inr in Hresp as [-> _].
  - cbn [content x_cache].
    destruct (reachable_cache st Hr _ _ Hk) as (df & l & s & a & b & Hl & Hkey & ->).
    exists df, l, s, a, b. repeat split; try assumption. discriminate.
  - cbn [content x_cache loaded].
    exists df, location, sensor, start_date, end_date. auto.
Qed.

Lemma answers_come_from_the_table_witness :
  exists df l s a b,
    loaded (snd (stats (pd := iso_pandas) temp_csv init (Some "Building B") None None None))
    = Some df /\
    _cache_key l s a b = _cache_key (Some "Building B") None None None /\
    content {| content :=
                 {| p_stats := compute (pd := iso_pandas)
                      (with_value (columns temp_csv)
                         (with_timestamp (columns temp_csv) (records temp_csv)))
                      (Some "Building B") None None None |};
               x_cache := MISS |}
    = {| p_stats := compute df l s a b |} /\
    (x_cache {| content :=
                  {| p_stats := compute (pd := iso_pandas)
                       (with_value (columns temp_csv)
                          (with_timestamp (columns temp_csv) (records temp_csv)))
                       (Some "Building B") None None None |};
                x_cache := MISS |} = MISS ->
     content {| content :=
                  {| p_stats := compute (pd := iso_pandas)
                       (with_value (columns temp_csv)
                          (with_timestamp (columns temp_csv) (records temp_csv)))
                       (Some "Building B") None None None |};
                x_cache := MISS |}
     = {| p_stats := compute df (Some "Building B") None None None |}).
Proof.
  apply (answers_come_from_the_table (pd := iso_pandas) temp_csv init).
  - apply reachable_init.
  - reflexivity.
Defined.

(** X7: in a process started from the empty state, every answer, HIT or
    MISS, either has count 0 with average, minimum and maximum all absent, or
    has a count that is not 0 with all three present. *)
Theorem answers_are_all_or_nothing `{pd : Pandas} (src : Frame) (st : State)
    (location sensor start_date end_date : option string) (resp : Response) :
  reachable st ->
  fst (stats src st location sensor start_date end_date) = inr resp ->
  let s := p_stats (content resp) in
  (st_count s = 0 /\ s = no_stats) \/
  (st_count s <> 0 /\
   is_Some (st_avg s) /\ is_Some (st_min s) /\ is_Some (st_max s)).
Proof.
  intros Hr Hresp.
  destruct (stats_cases src st location sensor start_date end_date)
    as [(p & Hk & E) | [(e & _ & _ & E) | (df & st1 & Hm & _ & E)]];
    rewrite E in Hresp; cbn [fst] in Hresp; [| discriminate |];
    apply JSONResponse_inr in Hresp as [-> _]; cbn [content p_stats].
  - destruct (reachable_cache st Hr _ _ Hk) as (df & l & s & a & b & _ & _ & ->).
    apply aggregate_shape.
  - apply aggregate_shape.
Qed.

Lemma answers_are_all_or_nothing_witness :
  let s := p_stats (content
             {| content := {| p_stats := no_stats |}; x_cache := MISS |}) in
  (st_count s = 0 /\ s = no_stats) \/
  (st_count s <> 0 /\
   is_Some (st_avg s) /\ is_Some (st_min s) /\ is_Some (st_max s)).
Proof.
  apply (answers_are_all_or_nothing (pd := iso_pandas) temp_csv init
           (Some "Building C") None None None).
  - apply reachable_init.
  - reflexivity.
Defined.

Section Serving.

Context `{pd : Pandas}.

Lemma serve_cons_snd (src : Frame) (st : State) (q : Request) (qs : list Request) :
  snd (serve src st (q :: qs)) = snd (serve src (snd (stats_req src st q)) qs).
Proof.
  cbn [serve]. destruct (stats_req src st q) as [r st1]. cbn [snd].
  now destruct (serve src st1 qs).
Qed.

(** On a file that loads, a request whose key is stored is answered from the
    cache and any other is computed from the table; its key is stored
    afterwards, next to those that were; the table, once loaded, is that of
    the file. *)
Lemma stats_req_loads (src : Frame) (df : DataFrame) (st : State) (q : Request) :
  load_data_body src = inr df ->
  (forall df0, loaded st = Some df0 -> df0 = df) ->
  (forall payload, cache st !! request_key q = Some payload ->
     fst (stats_req src st q) = JSONResponse payload HIT) /\
  (cache st !! request_key q = None ->
   fst (stats_req src st q)
   = JSONResponse
       {| p_stats := compute df (q_location q) (q_sensor q)
                       (q_start_date q) (q_end_date q) |} MISS) /\
  (forall k, is_Some (cache (snd (stats_req src st q)) !! k)
             <-> is_Some (cache st !! k) \/ k = request_key q) /\
  (forall df0, loaded (snd (stats_req src st q)) = Some df0 -> df0 = df).
Proof.
  intros Hbody Hdf. unfold stats_req, request_key.
  destruct (stats_cases src st (q_location q) (q_sensor q)
              (q_start_date q) (q_end_date q))
    as [(p & Hk & E) | [(e & Hm & Hl & E) | (df1 & st1 & Hm & Hl & E)]].
  - rewrite E. cbn [fst snd]. split; [|split; [|split]].
    + intros payload Hp. congruence.
    + congruence.
    + intros k. split; [auto|]. intros [Hs | ->]; [assumption|]. rewrite Hk. eauto.
    + exact Hdf.
  - exfalso. unfold stats, load_data in E. rewrite Hm, Hl, Hbody in E.
    injection E as E _. unfold JSONResponse in E.
    destruct (json_compliant _); discriminate.
  - assert (df1 = df) as ->.
    { unfold load_data in Hl. destruct (loaded st) as [df0|] eqn:Hl0.
      - injection Hl as <- _. now apply Hdf.
      - rewrite Hbody in Hl. injection Hl as <- _. reflexivity. }
    rewrite E. cbn [fst snd cache loaded]. split; [|split; [|split]].
    + intros payload Hp. congruence.
    + reflexivity.
    + intros k. rewrite lookup_insert.
      destruct (decide (_ = k)) as [<- | Hne]; split; eauto.
      intros [Hs | ->]; [assumption | congruence].
    + now intros df0 [= <-].
Qed.

Lemma serve_keys (src : Frame) (df : DataFrame) (qs : list Request) (st : State) :
  load_data_body src = inr df ->
  (forall df0, loaded st = Some df0 -> df0 = df) ->
  (forall k, is_Some (cache (snd (serve src st qs)) !! k)
             <-> is_Some (cache st !! k) \/ k ∈ map request_key qs) /\
  (forall df0, loaded (snd (serve src st qs)) = Some df0 -> df0 = df).
Proof.
  intros Hbody. revert st. induction qs as [|q qs IH]; intros st Hdf.
  - cbn [serve snd map]. split; [|exact Hdf].
    intros k. rewrite elem_of_nil. tauto.
  - destruct (stats_req_loads src df st q Hbody Hdf) as (_ & _ & Hkeys & Hdf1).
    destruct (IH _ Hdf1) as [IHk IHdf].
    rewrite serve_cons_snd. split; [|exact IHdf].
    intros k. rewrite IHk, Hkeys. cbn [map]. rewrite elem_of_cons. tauto.
Qed.

End Serving.

(** X8: in a process serving requests from a file that loads, the key of a
    request is stored exactly when a request with the same key was served
    before; then the request is answered from the cache, as a HIT, and
    otherwise it is computed from the table of the file, as a MISS; so an
    answer is a HIT exactly when a request with the same key was served
    before. *)
Theorem hit_iff_key_served_before `{pd : Pandas} (src : Frame) (df : DataFrame)
    (qs : list Request) (q : Request) :
  load_data_body src = inr df ->
  let st := snd (serve src init qs) in
  (is_Some (cache st !! request_key q) <-> request_key q ∈ map request_key qs) /\
  (request_key q ∈ map request_key qs ->
   exists payload,
     cache st !! request_key q = Some payload /\
     fst (stats_req src st q) = JSONResponse payload HIT) /\
  (request_key q ∉ map request_key qs ->
   fst (stats_req src st q)
   = JSONResponse
       {| p_stats := compute df (q_location q) (q_sensor q)
                       (q_start_date q) (q_end_date q) |} MISS) /\
  (forall resp,
     fst (stats_req src st q) = inr resp ->
     (x_cache resp = HIT <-> request_key q ∈ map request_key qs)).
Proof.
  intros Hbody st.
  assert (Hinit : forall df0, loaded init = Some df0 -> df0 = df)
    by (intros df0; discriminate).
  destruct (serve_keys src df qs init Hbody Hinit) as [Hkeys Hdf].
  fold st in Hkeys, Hdf.
  destruct (stats_req_loads src df st q Hbody Hdf) as (Hhit & Hmiss & _ & _).
  assert (Hstored : is_Some (cache st !! request_key q)
                    <-> request_key q ∈ map request_key qs).
  { rewrite Hkeys. unfold init at 1. cbn [cache]. rewrite lookup_empty.
    split; [intros [[? ?]|?]; [discriminate | assumption] | auto]. }
  split; [exact Hstored|]. split; [|split].
  - intros Hin. apply Hstored in Hin as [payload Hp]. eauto.
  - intros Hnin. apply Hmiss. destruct (cache st !! request_key q) eqn:E;
      [|reflexivity]. exfalso. apply Hnin, Hstored. eauto.
  - intros resp Hresp. rewrite <- Hstored.
    destruct (cache st !! request_key q) as [payload|] eqn:E.
    + rewrite (Hhit _ eq_refl) in Hresp.
      apply JSONResponse_inr in Hresp as [-> _]. cbn [x_cache]. split; eauto.
    + rewrite (Hmiss eq_refl) in Hresp.
      apply JSONResponse_inr in Hresp as [-> _]. cbn [x_cache].
      split; [discriminate | intros [? ?]; discriminate].
Qed.

Lemma hit_iff_key_served_before_witness :
  let df := with_value (pd := iso_pandas) (columns temp_csv)
              (with_timestamp (columns temp_csv) (records temp_csv)) in
  let q := by_location (Some " building a") in
  let qs := [by_location (Some "Building A")] in
  let st := snd (serve (pd := iso_pandas) temp_csv init qs) in
  (is_Some (cache st !! request_key q) <-> request_key q ∈ map request_key qs) /\
  (request_key q ∈ map request_key qs ->
   exists payload,
     cache st !! request_key q = Some payload /\
     fst (stats_req temp_csv st q) = JSONResponse payload HIT) /\
  (request_key q ∉ map request_key qs ->
   fst (stats_req temp_csv st q)
   = JSONResponse
       {| p_stats := compute df (q_location q) (q_sensor q)
                       (q_start_date q) (q_end_date q) |} MISS) /\
  (forall resp,
     fst (stats_req temp_csv st q) = inr resp ->
     (x_cache resp = HIT <-> request_key q ∈ map request_key qs)).
Proof.
  intros df q qs.
  apply (hit_iff_key_served_before (pd := iso_pandas) temp_csv df qs q).
  reflexivity.
Defined.

(** ** The selection and the aggregates *)

Section Selection.

Context `{pd : Pandas}.

Lemma compute_count (df : DataFrame) (location sensor start_date end_date : option string) :
  st_count (compute df location sensor start_date end_date)
  = length (filter (matches location sensor start_date end_date) df).
Proof. unfold compute. now rewrite aggregate_count, filter_rows_matches. Qed.

Lemma filter_length_mono {A} (P Q : A -> Prop)
    `{!forall x, Decision (P x), !forall x, Decision (Q x)} (l : list A) :
  (forall x, P x -> Q x) -> length (filter P l) <= length (filter Q l).
Proof.
  intros HPQ. induction l as [|x l IH]; [reflexivity|].
  rewrite !filter_cons.
  destruct (decide (P x)) as [HP|HP], (decide (Q x)) as [HQ|HQ]; simpl; try lia.
  now apply HPQ in HP.
Qed.

Lemma filter_none {A} (P : A -> Prop) `{!forall x, Decision (P x)} (l : list A) :
  (forall x, x ∈ l -> ~ P x) -> filter P l = [].
Proof.
  intros HP. induction l as [|x l IH]; [reflexivity|].
  rewrite filter_cons_False by (apply HP; left).
  apply IH. intros y Hy. apply HP. now right.
Qed.

Lemma omap_invalid_rows (cols : list string) (ctx rows : list (list string)) :
  (forall row, row ∈ rows -> invalid_row cols ctx row) ->
  omap (reading_of cols ctx) rows = [].
Proof.
  induction rows as [|row rows IH]; intros Hrows; [reflexivity|].
  cbn [omap list_omap].
  rewrite (proj2 (reading_of_invalid cols ctx row)) by (apply Hrows; left).
  apply IH. intros r Hr. apply Hrows. now right.
Qed.

End Selection.

(** X9: when the start date and the end date both parse and the end is
    before the start, no reading is selected: the stats are count 0 with no
    average, minimum or maximum; the request is not refused. *)
Theorem inverted_window_selects_nothing `{pd : Pandas} (df : DataFrame)
    (location sensor start_date end_date : option string) (t1 t2 : Z) :
  _parse_iso start_date = Some t1 ->
  _parse_iso end_date = Some t2 ->
  (t2 < t1)%Z ->
  filter_rows df location sensor start_date end_date = [] /\
  compute df location sensor start_date end_date = no_stats.
Proof.
  intros H1 H2 Hlt.
  assert (E : filter_rows df location sensor start_date end_date = []).
  { rewrite filter_rows_matches. apply filter_none.
    intros r _ (_ & _ & Hf & Hu).
    specialize (Hf _ H1). specialize (Hu _ H2). lia. }
  split; [exact E|]. unfold compute. now rewrite E.
Qed.

Lemma inverted_window_selects_nothing_witness :
  let df := with_value (pd := iso_pandas) (columns temp_csv)
              (with_timestamp (columns temp_csv) (records temp_csv)) in
  filter_rows df None None (Some "2024-01-31") (Some "2024-01-01") = [] /\
  compute df None None (Some "2024-01-31") (Some "2024-01-01") = no_stats.
Proof.
  intros df.
  apply (inverted_window_selects_nothing (pd := iso_pandas) df None None
           (Some "2024-01-31") (Some "2024-01-01")
           1706659200000000000 1704067200000000000);
    reflexivity.
Defined.

(** X10: a file that has the four columns and no readable row (no row at
    all, or rows whose timestamp or value cannot be read) is not an error:
    the table is empty and every request is answered with count 0 and no
    average, minimum or maximum. *)
Theorem unreadable_rows_give_no_stats `{pd : Pandas} (src : Frame)
    (location sensor start_date end_date : option string) :
  (forall c, c ∈ required -> c ∈ columns src) ->
  (forall row, row ∈ records src ->
     invalid_row (columns src) (records src) row) ->
  load_data_body src = inr [] /\
  fst (stats src init location sensor start_date end_date)
  = inr {| content := {| p_stats := no_stats |}; x_cache := MISS |}.
Proof.
  intros Hcols Hrows.
  assert (E : load_data_body src = inr []).
  { unfold load_data_body.
    rewrite (filter_none (fun c => c ∉ columns src) required)
      by (intros c Hc Hn; now apply Hn, Hcols).
    now rewrite load_rows_fused, omap_invalid_rows. }
  split; [exact E|].
  rewrite (stats_miss src init {| loaded := Some []; cache := ∅ |} []).
  - cbn [fst]. unfold compute. now rewrite filter_rows_matches.
  - apply lookup_empty.
  - unfold load_data. cbn [loaded init]. now rewrite E.
Qed.

Lemma unreadable_rows_give_no_stats_witness :
  load_data_body (pd := iso_pandas) unreadable_csv = inr [] /\
  fst (stats (pd := iso_pandas) unreadable_csv init (Some "Building A") None None None)
  = inr {| content := {| p_stats := no_stats |}; x_cache := MISS |}.
Proof.
  apply (unreadable_rows_give_no_stats (pd := iso_pandas) unreadable_csv).
  - intros c Hc. unfold required in Hc. cbn [columns unreadable_csv].
    exact Hc.
  - intros row Hrow. cbn [records unreadable_csv] in Hrow.
    apply elem_of_cons in Hrow as [-> | Hrow]; [left; reflexivity|].
    apply elem_of_cons in Hrow as [-> | Hrow]; [right; reflexivity|].
    now apply elem_of_nil in Hrow.
Defined.

(** X12: the readings an answer is computed from are readings of the table,
    in the order of the table, none invented and none repeated: they form a
    sublist of the table, and the count is at most the size of the table. *)
Theorem selected_rows_are_a_sublist `{pd : Pandas} (df : DataFrame)
    (location sensor start_date end_date : option string) :
  filter_rows df location sensor start_date end_date `sublist_of` df /\
  st_count (compute df location sensor start_date end_date) <= length df.
Proof.
  assert (Hs : filter_rows df location sensor start_date end_date `sublist_of` df).
  { rewrite filter_rows_matches. apply sublist_filter. }
  split; [exact Hs|].
  unfold compute. rewrite aggregate_count. now apply sublist_length.
Qed.

(** X13: a reading is selected by a request exactly when each of the four
    parameters, taken alone, selects it. *)
Theorem selection_is_conjunctive `{pd : Pandas} (df : DataFrame) (r : Reading)
    (location sensor start_date end_date : option string) :
  r ∈ filter_rows df location sensor start_date end_date
  <-> r ∈ filter_rows df location None None None /\
      r ∈ filter_rows df None sensor None None /\
      r ∈ filter_rows df None None start_date None /\
      r ∈ filter_rows df None None None end_date.
Proof.
  rewrite !elem_of_filter_rows. unfold matches.
  pose proof (text_criterion_missing (location_norm r)).
  pose proof (text_criterion_missing (sensor_norm r)).
  pose proof (from_criterion_absent None (timestamp r) eq_refl).
  pose proof (until_criterion_absent None (timestamp r) eq_refl).
  tauto.
Qed.

(** X14: widening the window never loses a reading: with an earlier start
    and a later end, every reading selected before is still selected, and
    the count does not go down. *)
Theorem wider_window_keeps_readings `{pd : Pandas} (df : DataFrame)
    (location sensor : option string)
    (start1 end1 start2 end2 : option string) (s1 e1 s2 e2 : Z) :
  _parse_iso start1 = Some s1 -> _parse_iso end1 = Some e1 ->
  _parse_iso start2 = Some s2 -> _parse_iso end2 = Some e2 ->
  (s2 <= s1)%Z -> (e1 <= e2)%Z ->
  (forall r, r ∈ filter_rows df location sensor start1 end1 ->
             r ∈ filter_rows df location sensor start2 end2) /\
  st_count (compute df location sensor start1 end1)
  <= st_count (compute df location sensor start2 end2).
Proof.
  intros Hs1 He1 Hs2 He2 Hs He.
  assert (Himp : forall r, matches location sensor start1 end1 r ->
                           matches location sensor start2 end2 r).
  { intros r (Hl & Hn & Hf & Hu). repeat split; try assumption.
    - rewrite (from_criterion_parsed _ _ _ Hs1) in Hf.
      rewrite (from_criterion_parsed _ _ _ Hs2). lia.
    - rewrite (until_criterion_parsed _ _ _ He1) in Hu.
      rewrite (until_criterion_parsed _ _ _ He2). lia. }
  split.
  - intros r. rewrite !elem_of_filter_rows. intros [Hin Hm]. auto.
  - rewrite !compute_count. now apply filter_length_mono.
Qed.

Lemma wider_window_keeps_readings_witness :
  let df := with_value (pd := iso_pandas) (columns temp_csv)
              (with_timestamp (columns temp_csv) (records temp_csv)) in
  (forall r, r ∈ filter_rows df None None (Some "2024-01-11") (Some "2024-01-12") ->
             r ∈ filter_rows df None None (Some "2024-01-01") (Some "2024-01-31")) /\
  st_count (compute df None None (Some "2024-01-11") (Some "2024-01-12"))
  <= st_count (compute df None None (Some "2024-01-01") (Some "2024-01-31")).
Proof.
  intros df.
  apply (wider_window_keeps_readings (pd := iso_pandas) df None None
           (Some "2024-01-11") (Some "2024-01-12")
           (Some "2024-01-01") (Some "2024-01-31")
           1704931200000000000 1705017600000000000
           1704067200000000000 1706659200000000000);
    try reflexivity; vm_compute; discriminate.
Defined.

(** ** Empty parameters *)

(** X15: a parameter passed as the empty text selects the same readings as
    the parameter left out, for each of the four parameters; but its key is
    another one, so a request with an empty location, served after the same
    request without location, is computed again, as a miss with the same
    stats, and not answered from the cache. *)
Theorem empty_text_is_computed_again `{pd : Pandas} (src : Frame) (st : State)
    (df : DataFrame) (sensor start_date end_date : option string) :
  cache st !! _cache_key None sensor start_date end_date = None ->
  cache st !! _cache_key (Some "") sensor start_date end_date = None ->
  fst (load_data src st) = inr df ->
  (forall l s a b,
     filter_rows df (Some "") s a b = filter_rows df None s a b /\
     filter_rows df l (Some "") a b = filter_rows df l None a b /\
     filter_rows df l s (Some "") b = filter_rows df l s None b /\
     filter_rows df l s a (Some "") = filter_rows df l s a None) /\
  let first := stats src st None sensor start_date end_date in
  let second := stats src (snd first) (Some "") sensor start_date end_date in
  let payload := {| p_stats := compute df None sensor start_date end_date |} in
  fst first = JSONResponse payload MISS /\
  cache (snd first) !! _cache_key (Some "") sensor start_date end_date = None /\
  fst second = JSONResponse payload MISS.
Proof.
  intros Hk1 Hk2 Hload. split; [intros l s a b; repeat split; reflexivity|].
  intros first second payload. subst second first payload.
  destruct (load_data src st) as [res st1] eqn:Hl. cbn [fst] in Hload. subst res.
  destruct (load_data_ok _ _ _ _ Hl) as (Hl1 & Hc1 & _).
  rewrite (stats_miss _ _ _ _ _ _ _ _ Hk1 Hl). cbn [fst snd].
  split; [reflexivity|].
  assert (Hk : cache {| loaded := loaded st1;
                        cache := <[_cache_key None sensor start_date end_date :=
                                     {| p_stats := compute df None sensor
                                                     start_date end_date |}]>
                                 (cache st1) |}
               !! _cache_key (Some "") sensor start_date end_date = None).
  { cbn [cache]. rewrite lookup_insert_ne by discriminate. now rewrite Hc1. }
  split; [exact Hk|].
  erewrite stats_miss; [reflexivity | exact Hk |].
  apply load_data_loaded. exact Hl1.
Qed.

Lemma empty_text_is_computed_again_witness :
  let df := with_value (pd := iso_pandas) (columns temp_csv)
              (with_timestamp (columns temp_csv) (records temp_csv)) in
  (forall l s a b,
     filter_rows df (Some "") s a b = filter_rows df None s a b /\
     filter_rows df l (Some "") a b = filter_rows df l None a b /\
     filter_rows df l s (Some "") b = filter_rows df l s None b /\
     filter_rows df l s a (Some "") = filter_rows df l s a None) /\
  let first := stats (pd := iso_pandas) temp_csv init None (Some "temp") None None in
  let second := stats (pd := iso_pandas) temp_csv (snd first)
                  (Some "") (Some "temp") None None in
  let payload := {| p_stats := compute df None (Some "temp") None None |} in
  fst first = JSONResponse payload MISS /\
  cache (snd first) !! _cache_key (Some "") (Some "temp") None None = None /\
  fst second = JSONResponse payload MISS.
Proof.
  intros df.
  apply (empty_text_is_computed_again (pd := iso_pandas) temp_csv init df);
    reflexivity.
Defined.

(** ** The table and the file *)

Section File.

Context `{pd : Pandas}.

Lemma filter_ext_in {A} (P Q : A -> Prop)
    `{!forall x, Decision (P x), !forall x, Decision (Q x)} (l : list A) :
  (forall x, x ∈ l -> (P x <-> Q x)) -> filter P l = filter Q l.
Proof.
  induction l as [|x l IH]; intros HPQ; [reflexivity|].
  rewrite !filter_cons.
  assert (Hx : P x <-> Q x) by (apply HPQ; left).
  rewrite IH by (intros y Hy; apply HPQ; now right).
  destruct (decide (P x)), (decide (Q x)); tauto.
Qed.

Lemma filter_omap {A B} (f : A -> option B) (P : B -> Prop) (Q : A -> Prop)
    `{!forall y, Decision (P y), !forall x, Decision (Q x)} (l : list A) :
  (forall x y, f x = Some y -> (P y <-> Q x)) ->
  filter P (omap f l) = omap f (filter Q l).
Proof.
  intros HPQ. induction l as [|x l IH]; [reflexivity|].
  cbn [omap list_omap]. rewrite filter_cons.
  destruct (f x) as [y|] eqn:E.
  - rewrite filter_cons. specialize (HPQ x y E).
    destruct (decide (P y)), (decide (Q x)); try tauto.
    cbn [omap list_omap]. now rewrite E, IH.
  - destruct (decide (Q x)); [|exact IH].
    cbn [omap list_omap]. now rewrite E.
Qed.

Lemma column_cells (cols1 cols2 : list string) (rows1 rows2 : list (list string))
    (c : string) :
  Forall2 (fun row1 row2 => cell cols1 row1 c = cell cols2 row2 c) rows1 rows2 ->
  column cols1 rows1 c = column cols2 rows2 c.
Proof.
  unfold column. induction 1 as [|row1 row2 rows1 rows2 Hrow _ IH];
    [reflexivity|].
  cbn [map]. now rewrite Hrow, IH.
Qed.

Lemma reading_of_cells (cols1 cols2 : list string) (ctx1 ctx2 : list (list string))
    (row1 row2 : list string) :
  (forall c, c ∈ required -> column cols1 ctx1 c = column cols2 ctx2 c) ->
  (forall c, c ∈ required -> cell cols1 row1 c = cell cols2 row2 c) ->
  reading_of cols1 ctx1 row1 = reading_of cols2 ctx2 row2.
Proof.
  intros Hctx Hc. unfold reading_of.
  assert (Hreq : forall c, c ∈ ["timestamp"; "location"; "sensor"; "value"] ->
                           c ∈ required) by (intros c Hin; exact Hin).
  rewrite (Hc "timestamp"), (Hc "value"), (Hc "location"), (Hc "sensor"),
    (Hctx "timestamp"), (Hctx "value"), (Hctx "location"), (Hctx "sensor");
    [reflexivity | | | | | | | |]; apply Hreq;
    repeat (first [left; fail | right]); left.
Qed.

Lemma omap_reading_of_cells (cols1 cols2 : list string)
    (ctx1 ctx2 rows1 rows2 : list (list string)) :
  (forall c, c ∈ required -> column cols1 ctx1 c = column cols2 ctx2 c) ->
  Forall2 (fun row1 row2 =>
             forall c, c ∈ required -> cell cols1 row1 c = cell cols2 row2 c)
          rows1 rows2 ->
  omap (reading_of cols1 ctx1) rows1 = omap (reading_of cols2 ctx2) rows2.
Proof.
  intros Hctx. induction 1 as [|row1 row2 rows1 rows2 Hrow _ IH]; [reflexivity|].
  cbn [omap list_omap]. now rewrite (reading_of_cells _ _ _ _ _ _ Hctx Hrow), IH.
Qed.

End File.

(** X16: selecting by a location that is not empty, once the file is loaded,
    gives the readings of the rows of the file whose location cell, written
    as text the way its column is, has the same trimmed, lower-case text as
    the parameter; and the same for the sensor. The rows are read as rows of
    the whole file: in a column of whole numbers the cell [007] is the text
    [7]. *)
Theorem selection_reads_the_normalized_cell `{pd : Pandas} (src : Frame)
    (df : DataFrame) (p : string) :
  load_data_body src = inr df ->
  p <> "" ->
  let cols := columns src in
  let rows := records src in
  filter_rows df (Some p) None None None
  = omap (reading_of cols rows)
      (filter (fun row =>
                 norm (Some (column_astype_str (column cols rows "location")
                               (cell cols row "location")))
                 = norm (Some p)) rows) /\
  filter_rows df None (Some p) None None
  = omap (reading_of cols rows)
      (filter (fun row =>
                 norm (Some (column_astype_str (column cols rows "sensor")
                               (cell cols row "sensor")))
                 = norm (Some p)) rows).
Proof.
  intros Hload Hp cols rows.
  destruct (load_data_body_columns src df Hload) as [Hdf _].
  fold cols rows in Hdf.
  destruct p as [|c p]; [congruence|].
  split.
  - unfold filter_rows. cbn [_parse_iso where_ge where_le where_eq].
    rewrite Hdf. apply filter_omap.
    intros row r E. apply reading_of_valid in E as (_ & _ & -> & _).
    cbn [norm]. split; [congruence | now intros [= ->]].
  - unfold filter_rows. cbn [_parse_iso where_ge where_le where_eq].
    rewrite Hdf. apply filter_omap.
    intros row r E. apply reading_of_valid in E as (_ & _ & _ & ->).
    cbn [norm]. split; [congruence | now intros [= ->]].
Qed.

Lemma selection_reads_the_normalized_cell_witness :
  let cols := columns coded_csv in
  let rows := records coded_csv in
  let df := with_value (pd := iso_pandas) cols (with_timestamp cols rows) in
  length (filter_rows df (Some "7") None None None) = 1 /\
  filter_rows df (Some "007") None None None = [] /\
  filter_rows df (Some "7") None None None
  = omap (reading_of cols rows)
      (filter (fun row =>
                 norm (Some (column_astype_str (column cols rows "location")
                               (cell cols row "location")))
                 = norm (Some "7")) rows) /\
  filter_rows df None (Some "7") None None
  = omap (reading_of cols rows)
      (filter (fun row =>
                 norm (Some (column_astype_str (column cols rows "sensor")
                               (cell cols row "sensor")))
                 = norm (Some "7")) rows).
Proof.
  intros cols rows df. split; [reflexivity|]. split; [reflexivity|].
  apply (selection_reads_the_normalized_cell (pd := iso_pandas) coded_csv df);
    [reflexivity | discriminate].
Defined.

(** X17: only the cells of the four required columns count: two files
    that have the same required columns present, and rows that agree, one by
    one, on the cells of those columns, load into the same table or raise the
    same error, whatever other columns they have and in whatever order the
    columns come. *)
Theorem only_required_columns_matter `{pd : Pandas} (src1 src2 : Frame) :
  (forall c, c ∈ required -> (c ∈ columns src1 <-> c ∈ columns src2)) ->
  Forall2 (fun row1 row2 =>
             forall c, c ∈ required ->
               cell (columns src1) row1 c = cell (columns src2) row2 c)
          (records src1) (records src2) ->
  load_data_body src1 = load_data_body src2.
Proof.
  intros Hcols Hrows. unfold load_data_body.
  rewrite (filter_ext_in (fun c => c ∉ columns src1) (fun c => c ∉ columns src2))
    by (intros c Hc; specialize (Hcols c Hc); tauto).
  destruct (filter (fun c => c ∉ columns src2) required); [|reflexivity].
  f_equal. rewrite !load_rows_fused.
  apply omap_reading_of_cells; [|exact Hrows].
  intros c Hc. apply column_cells.
  eapply Forall2_impl; [exact Hrows|]. intros row1 row2 Hrow. now apply Hrow.
Qed.

Lemma only_required_columns_matter_witness :
  load_data_body (pd := iso_pandas) wide_csv
  = load_data_body (pd := iso_pandas) temp_csv.
Proof.
  apply (only_required_columns_matter (pd := iso_pandas) wide_csv temp_csv).
  - intros c Hc. unfold wide_csv. cbn [columns]. rewrite elem_of_cons.
    split; [|auto]. intros [-> | H]; [|exact H].
    unfold required in Hc.
    repeat (apply elem_of_cons in Hc as [Hc | Hc]; [discriminate|]).
    now apply elem_of_nil in Hc.
  - unfold wide_csv. cbn [records columns map temp_csv].
    repeat constructor; intros c Hc; unfold required in Hc;
      repeat (apply elem_of_cons in Hc as [-> | Hc]; [reflexivity|]);
      now apply elem_of_nil in Hc.
Defined.

(** ** The order of the rows *)

Lemma series_min_perm (vals1 vals2 : list Num) :
  vals1 ≡ₚ vals2 ->
  same_number (Number <$> series_min vals1) (Number <$> series_min vals2).
Proof.
  intros Hp. destruct vals1 as [|v1 vs1], vals2 as [|v2 vs2]; simpl.
  - exact I.
  - now apply Permutation_nil_cons in Hp.
  - symmetry in Hp. now apply Permutation_nil_cons in Hp.
  - destruct (fold_min_spec vs1 v1) as [Hin1 Hle1].
    destruct (fold_min_spec vs2 v2) as [Hin2 Hle2]. cbv zeta in *.
    split.
    + apply Hle1. now rewrite Hp.
    + apply Hle2. now rewrite <- Hp.
Qed.

Lemma series_max_perm (vals1 vals2 : list Num) :
  vals1 ≡ₚ vals2 ->
  same_number (Number <$> series_max vals1) (Number <$> series_max vals2).
Proof.
  intros Hp. destruct vals1 as [|v1 vs1], vals2 as [|v2 vs2]; simpl.
  - exact I.
  - now apply Permutation_nil_cons in Hp.
  - symmetry in Hp. now apply Permutation_nil_cons in Hp.
  - destruct (fold_max_spec vs1 v1) as [Hin1 Hle1].
    destruct (fold_max_spec vs2 v2) as [Hin2 Hle2]. cbv zeta in *.
    split.
    + apply Hle2. now rewrite <- Hp.
    + apply Hle1. now rewrite Hp.
Qed.

(** X18: the order of the readings in the loaded table does not matter for
    the count, the minimum and the maximum: on two tables that hold the same
    readings in another order, every request selects the same readings, and
    has the same count, and a minimum and a maximum equal as numbers. *)
Theorem row_order_does_not_matter `{pd : Pandas} (df1 df2 : DataFrame)
    (location sensor start_date end_date : option string) :
  df1 ≡ₚ df2 ->
  let s1 := compute df1 location sensor start_date end_date in
  let s2 := compute df2 location sensor start_date end_date in
  filter_rows df1 location sensor start_date end_date
  ≡ₚ filter_rows df2 location sensor start_date end_date /\
  st_count s1 = st_count s2 /\
  same_number (st_min s1) (st_min s2) /\
  same_number (st_max s1) (st_max s2).
Proof.
  intros Hdfp s1 s2. subst s1 s2. unfold compute.
  rewrite !filter_rows_matches.
  set (m1 := filter _ df1). set (m2 := filter _ df2).
  assert (Hm : m1 ≡ₚ m2) by (subst m1 m2; now rewrite Hdfp).
  assert (Hv : map value m1 ≡ₚ map value m2)
    by (change (value <$> m1 ≡ₚ value <$> m2); now rewrite Hm).
  split; [exact Hm|].
  split; [rewrite !aggregate_count; now rewrite Hm|].
  destruct m1 as [|r1 m1], m2 as [|r2 m2].
  - split; exact I.
  - now apply Permutation_nil_cons in Hm.
  - symmetry in Hm. now apply Permutation_nil_cons in Hm.
  - cbn [aggregate st_min st_max]. split.
    + now apply series_min_perm.
    + now apply series_max_perm.
Qed.

Lemma row_order_does_not_matter_witness :
  let df1 := with_value (pd := iso_pandas) (columns temp_csv)
               (with_timestamp (columns temp_csv) (records temp_csv)) in
  let df2 := rev df1 in
  let s1 := compute df1 (Some "Building A") None None None in
  let s2 := compute df2 (Some "Building A") None None None in
  filter_rows df1 (Some "Building A") None None None
  ≡ₚ filter_rows df2 (Some "Building A") None None None /\
  st_count s1 = st_count s2 /\
  same_number (st_min s1) (st_min s2) /\
  same_number (st_max s1) (st_max s2).
Proof.
  intros df1 df2.
  apply (row_order_does_not_matter (pd := iso_pandas) df1 df2).
  subst df2. apply Permutation_rev.
Defined.

(** ** Keys and answers *)

Lemma cache_key_only_same_text_witness :
  same_text (Some "Building A") (Some " building a") /\
  same_text None None /\
  same_text (Some "2024-01-01") (Some "2024-01-01 ") /\
  same_text None None.
Proof.
  apply (cache_key_only_same_text
           (Some "Building A") None (Some "2024-01-01") None
           (Some " building a") None (Some "2024-01-01 ") None).
  reflexivity.
Defined.

Lemma stats_same_norm_witness :
  stats (pd := iso_pandas) temp_csv init (Some "Building A") None None None
  = stats (pd := iso_pandas) temp_csv init (Some " building a") None None None /\
  stats (pd := iso_pandas) temp_csv init None (Some "Building A") None None
  = stats (pd := iso_pandas) temp_csv init None (Some " building a") None None.
Proof.
  apply (stats_same_norm (pd := iso_pandas) temp_csv init
           "Building A" " building a" None None None);
    [discriminate | discriminate | reflexivity].
Defined.
